(** * The binary asset loader of the solar-system simulator (glb_loader.py)

    A shallow embedding of [GLBLoader]: the typed accessor decoder, the mesh
    assembler, the texture loader, the GPU resource builder, [render] and
    [cleanup], with the properties the specification states about them. *)

From stdpp Require Import gmap strings list pretty.
From Stdlib Require Import ZArith Lia Strings.Byte Floats.PrimFloat.

Local Open Scope Z_scope.

(** ** Python values and control *)

(** The exceptions the loader can meet. *)
Inductive exn :=
  | IndexError
  | TypeError
  | ValueError
  | KeyError (key : string)
  | OSError
  | UnidentifiedImageError
  | AttributeError
  | GLError.

Inductive result (A : Type) :=
  | Ok (a : A)
  | Raise (e : exn).
Arguments Ok {A} a.
Arguments Raise {A} e.

#[global] Instance result_ret : MRet result := fun A a => Ok a.
#[global] Instance result_bind : MBind result := fun A B f m =>
  match m with
  | Ok a => f a
  | Raise e => Raise e
  end.

Definition is_Ok {A} (r : result A) : bool :=
  match r with Ok _ => true | Raise _ => false end.

(** [hasattr(obj, 'field')]: an attribute an object may lack altogether. *)
Inductive attr (A : Type) :=
  | NoAttr
  | Attr (a : A).
Arguments NoAttr {A}.
Arguments Attr {A} a.

Module Py.

Definition len {A} (l : list A) : Z := Z.of_nat (length l).

(** [l[i]] with Python's negative indices; out of range raises IndexError. *)
Definition getitem {A} (l : list A) (i : Z) : result A :=
  let j := if i <? 0 then i + len l else i in
  if (0 <=? j) && (j <? len l)
  then match l !! Z.to_nat j with
       | Some x => Ok x
       | None => Raise IndexError
       end
  else Raise IndexError.

(** [l[i]] where [i] may be None: list indices must be integers. *)
Definition getitem_opt {A} (l : list A) (i : option Z) : result A :=
  match i with
  | Some i => getitem l i
  | None => Raise TypeError
  end.

(** A slice bound is clamped to [0, len]; a negative one counts from the end. *)
Definition clamp (n i : Z) : Z :=
  if i <? 0 then Z.max 0 (i + n) else Z.min i n.

(** [l[a:b]] *)
Definition slice {A} (l : list A) (a b : Z) : list A :=
  let a' := clamp (len l) a in
  let b' := clamp (len l) b in
  take (Z.to_nat (b' - a')) (drop (Z.to_nat a') l).

(** [x or 0] on an optional integer. *)
Definition or0 (x : option Z) : Z := default 0 x.

(** [s or d] on an optional string: None and the empty string are falsy. *)
Definition or_str (s : option string) (d : string) : string :=
  match s with
  | Some s => if String.eqb s "" then d else s
  | None => d
  end.

(** [f"{prefix}{n}"] *)
Definition fmt (prefix : string) (n : nat) : string := prefix +:+ pretty n.

End Py.

(** ** The parsed container (the object graph pygltflib hands back) *)

Module Buffer.
(** [data] is what [gltf.get_data_from_buffer_uri(uri)] returns for this
    buffer: the decoded bytes, or None when the uri is not resolved. *)
Record t := mk { uri : option string; data : option (list byte) }.
End Buffer.

Module BufferView.
Record t := mk {
  buffer : option Z;
  byteOffset : option Z;
  byteLength : option Z }.
End BufferView.

Module Accessor.
(** [componentType] is None when the field is not an int. *)
Record t := mk {
  bufferView : option Z;
  byteOffset : option Z;
  componentType : option Z;
  count : Z;
  type : string }.
End Accessor.

Module Image.
Record t := mk {
  uri : attr (option string);
  bufferView : attr (option Z);
  mimeType : attr (option string);
  width : attr (option Z);
  height : attr (option Z) }.
End Image.

Module Texture.
Record t := mk { source : option Z; name : option string }.
End Texture.

Module Primitive.
(** [attributes] lists, in [dir()] order, the public fields of the
    attributes object with their values: [Some i] for an int, None for
    anything else. [indices] is None when the field is missing or not an
    int, [material] when it is missing or None. *)
Record t := mk {
  attributes : list (string * option Z);
  indices : option Z;
  material : option Z }.
End Primitive.

Module Mesh.
Record t := mk { name : option string; primitives : list Primitive.t }.
End Mesh.


Module PbrMetallicRoughness.
Record t := mk {
  baseColorFactor : list PrimFloat.float;
  metallicFactor : PrimFloat.float;
  roughnessFactor : PrimFloat.float }.
End PbrMetallicRoughness.

Module Material.
(** [pbrMetallicRoughness] is None when the field is missing or None. *)
Record t := mk {
  name : option string;
  pbrMetallicRoughness : option PbrMetallicRoughness.t }.
End Material.

Module GLTF2.
Record t := mk {
  buffers : list Buffer.t;
  bufferViews : list BufferView.t;
  accessors : list Accessor.t;
  images : list Image.t;
  textures : list Texture.t;
  materials : list Material.t;
  meshes : list Mesh.t }.
End GLTF2.

(** ** numpy arrays

    An array keeps its element type, its shape and the bytes it views. The
    numeric value of an element is never inspected by the loader. *)

Module np.

Inductive dtype := int8 | uint8 | int16 | uint16 | uint32 | float32.

#[global] Instance dtype_eq_dec : EqDecision dtype.
Proof. solve_decision. Defined.

Definition itemsize (d : dtype) : Z :=
  match d with
  | int8 | uint8 => 1
  | int16 | uint16 => 2
  | uint32 | float32 => 4
  end.

Record ndarray := mk { dtype_of : dtype; shape : list Z; buffer : list byte }.

(** Number of elements: the product of the dimensions. *)
Definition size (a : ndarray) : Z := foldr Z.mul 1 (shape a).

(** [len(a)]: the first dimension. *)
Definition len (a : ndarray) : Z := hd 0 (shape a).

(** [np.frombuffer(b, dtype=d)]: a one-dimensional view; the byte count must
    be a multiple of the element size. *)
Definition frombuffer (b : list byte) (d : dtype) : result ndarray :=
  if Py.len b mod itemsize d =? 0
  then Ok (mk d [Py.len b / itemsize d] b)
  else Raise ValueError.

(** [a.reshape(shp)] *)
Definition reshape (a : ndarray) (shp : list Z) : result ndarray :=
  if foldr Z.mul 1 shp =? size a
  then Ok (mk (dtype_of a) shp (buffer a))
  else Raise ValueError.

(** [a.astype(d).nbytes]: the converted copy has as many elements. *)
Definition nbytes_as (d : dtype) (a : ndarray) : Z := size a * itemsize d.

End np.

(** ** The typed accessor decoder *)

(** [_get_numpy_dtype]: the argument is None when it is not an int. *)
Definition type_map : gmap Z np.dtype :=
  list_to_map [(5120, np.int8); (5121, np.uint8); (5122, np.int16);
               (5123, np.uint16); (5125, np.uint32); (5126, np.float32)].

Definition _get_numpy_dtype (component_type : option Z) : np.dtype :=
  match component_type with
  | Some component_type => default np.float32 (type_map !! component_type)
  | None => np.float32
  end.

Definition component_count_map : gmap string Z :=
  list_to_map [("SCALAR", 1); ("VEC2", 2); ("VEC3", 3); ("VEC4", 4);
               ("MAT2", 4); ("MAT3", 9); ("MAT4", 16)]%string.

Definition component_count (type : string) : Z :=
  default 3 (component_count_map !! type).

(** [data[a:b]] on the bytes of a buffer; None is not subscriptable. *)
Definition slice_data (data : option (list byte)) (a b : Z) : result (list byte) :=
  match data with
  | Some data => Ok (Py.slice data a b)
  | None => Raise TypeError
  end.

(** [try: ... except ValueError: continue] leaves [fallback] in place. *)
Definition except_ValueError {A} (body : result A) (fallback : result A) : result A :=
  match body with
  | Raise ValueError => fallback
  | r => r
  end.

(** [_load_meshes], lines 149-167: the bytes [data[start:start + total_bytes]]
    of an attribute's accessor. Nothing here is inside the [try]. *)
Definition attribute_bytes (gltf : GLTF2.t) (accessor : Accessor.t) : result (list byte) :=
  buffer_view ← Py.getitem_opt (GLTF2.bufferViews gltf) (Accessor.bufferView accessor);
  buffer ← Py.getitem_opt (GLTF2.buffers gltf) (BufferView.buffer buffer_view);
  let data := Buffer.data buffer in
  let start := Py.or0 (BufferView.byteOffset buffer_view)
               + Py.or0 (Accessor.byteOffset accessor) in
  let component_count := component_count (Accessor.type accessor) in
  let dtype := _get_numpy_dtype (Accessor.componentType accessor) in
  let bytes_per_component := np.itemsize dtype in
  let total_bytes := Accessor.count accessor * component_count * bytes_per_component in
  slice_data data start (start + total_bytes).

(** Lines 170-172, inside the [try]: the array, reshaped only when its length
    is the expected one. *)
Definition attribute_array (accessor : Accessor.t) (buffer_data : list byte)
    : result np.ndarray :=
  let component_count := component_count (Accessor.type accessor) in
  let dtype := _get_numpy_dtype (Accessor.componentType accessor) in
  array ← np.frombuffer buffer_data dtype;
  if np.len array =? Accessor.count accessor * component_count
  then np.reshape array [Accessor.count accessor; component_count]
  else Ok array.

(** The body of [for attr in attribute_names]: the attributes dict of the
    primitive after one attribute. *)
Definition load_attribute (gltf : GLTF2.t) (attributes : gmap string np.ndarray)
    (attr : string * option Z) : result (gmap string np.ndarray) :=
  match attr.2 with
  | None => Ok attributes
  | Some accessor_idx =>
      accessor ← Py.getitem (GLTF2.accessors gltf) accessor_idx;
      buffer_data ← attribute_bytes gltf accessor;
      except_ValueError
        (array ← attribute_array accessor buffer_data;
         Ok (<[attr.1 := array]> attributes))
        (Ok attributes)
  end.

(** The whole attribute loop. *)
Fixpoint load_attributes (gltf : GLTF2.t) (attribute_names : list (string * option Z))
    (attributes : gmap string np.ndarray) : result (gmap string np.ndarray) :=
  match attribute_names with
  | [] => Ok attributes
  | attr :: rest =>
      attributes ← load_attribute gltf attributes attr;
      load_attributes gltf rest attributes
  end.

(** [_load_meshes], lines 178-187: the bytes [data[start:start + total_bytes]]
    of the accessor of an index list. Nothing here is inside the [try]. *)
Definition index_bytes (gltf : GLTF2.t) (accessor : Accessor.t) : result (list byte) :=
  buffer_view ← Py.getitem_opt (GLTF2.bufferViews gltf) (Accessor.bufferView accessor);
  buffer ← Py.getitem_opt (GLTF2.buffers gltf) (BufferView.buffer buffer_view);
  let data := Buffer.data buffer in
  let start := Py.or0 (BufferView.byteOffset buffer_view)
               + Py.or0 (Accessor.byteOffset accessor) in
  let dtype := _get_numpy_dtype (Accessor.componentType accessor) in
  let bytes_per_component := np.itemsize dtype in
  let total_bytes := Accessor.count accessor * bytes_per_component in
  slice_data data start (start + total_bytes).

(** What the loader keeps of a primitive. *)
Module PrimitiveData.
Record t := mk {
  attributes : gmap string np.ndarray;
  indices : option np.ndarray;
  material : option Z }.
End PrimitiveData.

Module MeshData.
Record t := mk { name : string; primitives : list PrimitiveData.t }.
End MeshData.

(** The body of [for primitive in mesh.primitives]: the primitives list of
    the mesh after one primitive. A ValueError on the index list runs
    [continue] in this loop, so the primitive is not appended. *)
Definition load_primitive (gltf : GLTF2.t) (primitives : list PrimitiveData.t)
    (primitive : Primitive.t) : result (list PrimitiveData.t) :=
  attributes ← load_attributes gltf (Primitive.attributes primitive) ∅;
  let material := Primitive.material primitive in
  match Primitive.indices primitive with
  | Some accessor_idx =>
      accessor ← Py.getitem (GLTF2.accessors gltf) accessor_idx;
      buffer_data ← index_bytes gltf accessor;
      let dtype := _get_numpy_dtype (Accessor.componentType accessor) in
      except_ValueError
        (indices ← np.frombuffer buffer_data dtype;
         Ok (primitives ++ [PrimitiveData.mk attributes (Some indices) material]))
        (Ok primitives)
  | None => Ok (primitives ++ [PrimitiveData.mk attributes None material])
  end.

Fixpoint load_primitives (gltf : GLTF2.t) (todo : list Primitive.t)
    (primitives : list PrimitiveData.t) : result (list PrimitiveData.t) :=
  match todo with
  | [] => Ok primitives
  | primitive :: rest =>
      primitives ← load_primitive gltf primitives primitive;
      load_primitives gltf rest primitives
  end.

(** ** Decoded images (PIL) and the loader's records *)

Module PIL.
Record Image := mk { mode : string; width : Z; height : Z; pixels : list byte }.
End PIL.

Module TextureData.
(** The texture dict: 'index' and 'name' always, the other keys after a
    successful decode ([image = None] is ['image' not in texture_data]). *)
Record t := mk {
  index : option Z;
  name : string;
  image : option PIL.Image;
  width : option Z;
  height : option Z;
  embedded : option bool }.

(** [texture_data.update({'image': img, 'width': ..., 'height': ..., 'embedded': e})] *)
Definition update (td : t) (img : PIL.Image) (e : bool) : t :=
  mk (index td) (name td) (Some img) (Some (PIL.width img)) (Some (PIL.height img)) (Some e).
End TextureData.

Module MaterialData.
Record t := mk {
  name : string;
  baseColorFactor : list PrimFloat.float;
  metallicFactor : PrimFloat.float;
  roughnessFactor : PrimFloat.float }.
End MaterialData.

(** ** The OpenGL context

    The context keeps the names that are alive in each name space, the image
    stored in each texture object, and the list of calls it has run. Names
    are drawn from one counter, so a generated name is fresh; deleting a name
    that is not alive is ignored. *)

Module GL.

Inductive target := ARRAY_BUFFER | ELEMENT_ARRAY_BUFFER.

Inductive call :=
  | GenVertexArrays (vao : Z)
  | BindVertexArray (vao : Z)
  | GenBuffers (vbo : Z)
  | BindBuffer (t : target) (vbo : Z)
  | BufferData (t : target) (nbytes : Z)
  | VertexAttribPointer (index size : Z)
  | EnableVertexAttribArray (index : Z)
  | GenTextures (tex : Z)
  | BindTexture (tex : Z)
  | TexImage2D (width height : Z) (pixels : list byte)
  | TexParameteri (pname param : string)
  | GetError
  | GetUniformLocation (program : Z) (name : string)
  | Uniform4f (location : Z) (v0 v1 v2 v3 : PrimFloat.float)
  | Uniform1f (location : Z) (v0 : PrimFloat.float)
  | Uniform1i (location : Z) (v0 : Z)
  | ActiveTexture (unit : Z)
  | DrawElements (count : Z)
  | DrawArrays (first count : Z)
  | DeleteVertexArrays (n : Z) (arrays : list Z)
  | DeleteBuffers (n : Z) (buffers : list Z)
  | DeleteTextures (textures : list Z).

Record state := mk {
  ticks : nat;
  trace : list call;
  vertex_arrays : gset Z;
  buffers : gset Z;
  textures : gset Z;
  generated : Z;
  bound_texture : Z;
  images : gmap Z (Z * Z * list byte) }.

Definition init : state := mk 0 [] ∅ ∅ ∅ 0 0 ∅.

(** The next unused name. *)
Definition fresh (s : state) : Z := generated s + 1.

(** The effect of a call on the objects of the context. *)
Definition effect (c : call) (s : state) : state :=
  match c with
  | GenVertexArrays vao =>
      mk (ticks s) (trace s) ({[vao]} ∪ vertex_arrays s) (buffers s) (textures s)
         (Z.max vao (generated s)) (bound_texture s) (images s)
  | GenBuffers vbo =>
      mk (ticks s) (trace s) (vertex_arrays s) ({[vbo]} ∪ buffers s) (textures s)
         (Z.max vbo (generated s)) (bound_texture s) (images s)
  | GenTextures tex =>
      mk (ticks s) (trace s) (vertex_arrays s) (buffers s) ({[tex]} ∪ textures s)
         (Z.max tex (generated s)) (bound_texture s) (images s)
  | BindTexture tex =>
      mk (ticks s) (trace s) (vertex_arrays s) (buffers s) (textures s)
         (generated s) tex (images s)
  | TexImage2D w h px =>
      mk (ticks s) (trace s) (vertex_arrays s) (buffers s) (textures s)
         (generated s) (bound_texture s) (<[bound_texture s := (w, h, px)]> (images s))
  | DeleteVertexArrays _ arrays =>
      mk (ticks s) (trace s) (vertex_arrays s ∖ list_to_set arrays) (buffers s) (textures s)
         (generated s) (bound_texture s) (images s)
  | DeleteBuffers _ bufs =>
      mk (ticks s) (trace s) (vertex_arrays s) (buffers s ∖ list_to_set bufs) (textures s)
         (generated s) (bound_texture s) (images s)
  | DeleteTextures texs =>
      mk (ticks s) (trace s) (vertex_arrays s) (buffers s) (textures s ∖ list_to_set texs)
         (generated s) (bound_texture s)
         (filter (λ kv, kv.1 ∉ texs) (images s))
  | _ => s
  end.

(** A call that returns: counted, recorded and applied. *)
Definition run (c : call) (s : state) : state :=
  let s' := effect c s in
  mk (S (ticks s')) (trace s' ++ [c]) (vertex_arrays s') (buffers s') (textures s')
     (generated s') (bound_texture s') (images s').

(** A call that raises: counted only. *)
Definition fail (s : state) : state :=
  mk (S (ticks s)) (trace s) (vertex_arrays s) (buffers s) (textures s)
     (generated s) (bound_texture s) (images s).

(** Number of objects alive in the context. *)
Definition live (s : state) : nat :=
  size (vertex_arrays s) + size (buffers s) + size (textures s).

End GL.

(** ** The loader object and the computations over it *)

Module Loader.
Record t := mk {
  base_path : string;
  gltf : option GLTF2.t;
  meshes : list MeshData.t;
  textures : list TextureData.t;
  materials : list MaterialData.t;
  vaos : list Z;
  vbos : list Z;
  texture_ids : list Z }.

(** [GLBLoader(base_path)] *)
Definition __init__ (base_path : string) : t := mk base_path None [] [] [] [] [] [].
End Loader.

(** The loader together with the OpenGL context it draws in. *)
Record World := mkWorld { self : Loader.t; gl : GL.state }.

(** A method body: it may change the world, and returns or raises. The world
    is kept when it raises, since a handler goes on from there. *)
Definition M (A : Type) : Type := World → World * result A.

#[global] Instance M_ret : MRet M := λ A a w, (w, Ok a).
#[global] Instance M_bind : MBind M := λ A B f m w,
  match m w with
  | (w', Ok a) => f a w'
  | (w', Raise e) => (w', Raise e)
  end.

Definition raise {A} (e : exn) : M A := λ w, (w, Raise e).

Definition lift {A} (r : result A) : M A := λ w, (w, r).

Definition get_self : M Loader.t := λ w, (w, Ok (self w)).

Definition set_self (f : Loader.t → Loader.t) : M unit :=
  λ w, (mkWorld (f (self w)) (gl w), Ok tt).

(** [try: body except Exception as e: handler] *)
Definition try_except {A} (body : M A) (handler : exn → M A) : M A := λ w,
  match body w with
  | (w', Raise e) => handler e w'
  | r => r
  end.

(** [for x in l: body] *)
Fixpoint for_each {A} (l : list A) (body : A → M unit) : M unit :=
  match l with
  | [] => mret tt
  | x :: l => body x ;; for_each l body
  end.

(** [enumerate(l)] *)
Definition enumerate {A} (l : list A) : list (Z * A) :=
  imap (λ i x, (Z.of_nat i, x)) l.

(** [self.gltf], an object with the container's fields once [load] has set it. *)
Definition get_gltf : M GLTF2.t := λ w,
  match Loader.gltf (self w) with
  | Some g => (w, Ok g)
  | None => (w, Raise (AttributeError))
  end.

Definition set_gltf (g : GLTF2.t) : M unit :=
  set_self (λ s, Loader.mk (Loader.base_path s) (Some g) (Loader.meshes s)
    (Loader.textures s) (Loader.materials s) (Loader.vaos s) (Loader.vbos s)
    (Loader.texture_ids s)).

(** [self.meshes.append(m)] and its siblings. *)
Definition append_mesh (m : MeshData.t) : M unit :=
  set_self (λ s, Loader.mk (Loader.base_path s) (Loader.gltf s) (Loader.meshes s ++ [m])
    (Loader.textures s) (Loader.materials s) (Loader.vaos s) (Loader.vbos s)
    (Loader.texture_ids s)).

Definition append_texture (t : TextureData.t) : M unit :=
  set_self (λ s, Loader.mk (Loader.base_path s) (Loader.gltf s) (Loader.meshes s)
    (Loader.textures s ++ [t]) (Loader.materials s) (Loader.vaos s) (Loader.vbos s)
    (Loader.texture_ids s)).

Definition append_material (m : MaterialData.t) : M unit :=
  set_self (λ s, Loader.mk (Loader.base_path s) (Loader.gltf s) (Loader.meshes s)
    (Loader.textures s) (Loader.materials s ++ [m]) (Loader.vaos s) (Loader.vbos s)
    (Loader.texture_ids s)).

Definition append_vao (vao : Z) : M unit :=
  set_self (λ s, Loader.mk (Loader.base_path s) (Loader.gltf s) (Loader.meshes s)
    (Loader.textures s) (Loader.materials s) (Loader.vaos s ++ [vao]) (Loader.vbos s)
    (Loader.texture_ids s)).

Definition append_vbo (vbo : Z) : M unit :=
  set_self (λ s, Loader.mk (Loader.base_path s) (Loader.gltf s) (Loader.meshes s)
    (Loader.textures s) (Loader.materials s) (Loader.vaos s) (Loader.vbos s ++ [vbo])
    (Loader.texture_ids s)).

Definition append_texture_id (texture_id : Z) : M unit :=
  set_self (λ s, Loader.mk (Loader.base_path s) (Loader.gltf s) (Loader.meshes s)
    (Loader.textures s) (Loader.materials s) (Loader.vaos s) (Loader.vbos s)
    (Loader.texture_ids s ++ [texture_id])).

(** [_clear_previous_data]: six fresh empty lists; no OpenGL call. *)
Definition _clear_previous_data : M unit :=
  set_self (λ s, Loader.mk (Loader.base_path s) (Loader.gltf s) [] [] [] [] [] []).

(** [_load_materials] *)
Definition load_material (material : Material.t) : M unit :=
  s ← get_self;
  let pbr := Material.pbrMetallicRoughness material in
  append_material
    (MaterialData.mk
       (Py.or_str (Material.name material) (Py.fmt "material_" (length (Loader.materials s))))
       (match pbr with
        | Some pbr => PbrMetallicRoughness.baseColorFactor pbr
        | None => [1.0; 1.0; 1.0; 1.0]%float
        end)
       (match pbr with
        | Some pbr => PbrMetallicRoughness.metallicFactor pbr
        | None => 0.5%float
        end)
       (match pbr with
        | Some pbr => PbrMetallicRoughness.roughnessFactor pbr
        | None => 0.5%float
        end)).

Definition _load_materials : M unit :=
  gltf ← get_gltf;
  for_each (GLTF2.materials gltf) load_material.

(** [_load_meshes]: the body of [for mesh in self.gltf.meshes]. *)
Definition load_mesh (gltf : GLTF2.t) (mesh : Mesh.t) : M unit :=
  s ← get_self;
  let name := Py.or_str (Mesh.name mesh) (Py.fmt "mesh_" (length (Loader.meshes s))) in
  primitives ← lift (load_primitives gltf (Mesh.primitives mesh) []);
  append_mesh (MeshData.mk name primitives).

Definition _load_meshes : M unit :=
  gltf ← get_gltf;
  for_each (GLTF2.meshes gltf) (load_mesh gltf).

(** The libraries the loader calls. An image decoder returns the image or
    raises; [gl_fault n] says that the [n]-th OpenGL call of the context
    raises instead of returning. *)
Class Libraries := {
  os_path_join : string → string → string → string;
  GLTF2_load : string → result GLTF2.t;
  Image_open : string → result PIL.Image;
  Image_open_bytes : list byte → result PIL.Image;
  Image_frombytes : Z → Z → list byte → result PIL.Image;
  Image_convert : PIL.Image → string → result PIL.Image;
  np_array : PIL.Image → result (list byte);
  uniform_location : Z → string → Z;
  gl_fault : nat → bool }.

Section GLBLoader.

Context `{Libraries}.

(** One OpenGL call. *)
Definition gl_call (c : GL.call) : M unit := λ w,
  if gl_fault (GL.ticks (gl w))
  then (mkWorld (self w) (GL.fail (gl w)), Raise GLError)
  else (mkWorld (self w) (GL.run c (gl w)), Ok tt).

Definition glGenVertexArrays : M Z := λ w,
  let vao := GL.fresh (gl w) in (gl_call (GL.GenVertexArrays vao) ;; mret vao) w.

Definition glGenBuffers : M Z := λ w,
  let vbo := GL.fresh (gl w) in (gl_call (GL.GenBuffers vbo) ;; mret vbo) w.

Definition glGenTextures : M Z := λ w,
  let tex := GL.fresh (gl w) in (gl_call (GL.GenTextures tex) ;; mret tex) w.

Definition glGetUniformLocation (program : Z) (name : string) : M Z :=
  gl_call (GL.GetUniformLocation program name) ;; mret (uniform_location program name).

(** *** [_load_textures] *)

(** [hasattr(image, 'uri') and image.uri] *)
Definition image_uri (image : Image.t) : option string :=
  match Image.uri image with
  | Attr (Some uri) => if String.eqb uri "" then None else Some uri
  | _ => None
  end.

(** The first [try] block: the image of an external file. *)
Definition external_image (base_path uri : string) : result PIL.Image :=
  img ← Image_open (os_path_join base_path "models" uri);
  Image_convert img "RGBA".

(** The bytes of an embedded image; nothing here is inside a [try]. *)
Definition embedded_image_data (gltf : GLTF2.t) (bufferView : option Z) : result (list byte) :=
  buffer_view ← Py.getitem_opt (GLTF2.bufferViews gltf) bufferView;
  buffer ← Py.getitem_opt (GLTF2.buffers gltf) (BufferView.buffer buffer_view);
  let data := Buffer.data buffer in
  let start := Py.or0 (BufferView.byteOffset buffer_view) in
  match BufferView.byteLength buffer_view with
  | None => Raise TypeError
  | Some byteLength => slice_data data start (start + byteLength)
  end.

(** The second [try] block: the image of an embedded byte range. *)
Definition embedded_image (image : Image.t) (image_data : list byte) : result PIL.Image :=
  match Image.mimeType image with
  | Attr mimeType =>
      if bool_decide (mimeType = Some "image/png"%string) then Image_open_bytes image_data
      else if bool_decide (mimeType = Some "image/jpeg"%string) then Image_open_bytes image_data
      else match Image.width image, Image.height image with
           | Attr width, Attr height =>
               match width, height with
               | Some width, Some height => Image_frombytes width height image_data
               | _, _ => Raise TypeError
               end
           | _, _ => Raise ValueError
           end
  | NoAttr => Image_open_bytes image_data
  end.

(** The body of [for texture in self.gltf.textures]. *)
Definition load_texture (gltf : GLTF2.t) (texture : Texture.t) : M unit :=
  s ← get_self;
  let texture_data :=
    TextureData.mk (Texture.source texture)
      (Py.or_str (Texture.name texture) (Py.fmt "texture_" (length (Loader.textures s))))
      None None None None in
  match Texture.source texture with
  | None => mret tt
  | Some source =>
      if source <? Py.len (GLTF2.images gltf) then
        image ← lift (Py.getitem (GLTF2.images gltf) source);
        match image_uri image with
        | Some uri =>
            match external_image (Loader.base_path s) uri with
            | Ok img => append_texture (TextureData.update texture_data img false)
            | Raise _ => mret tt
            end
        | None =>
            match Image.bufferView image with
            | Attr bufferView =>
                image_data ← lift (embedded_image_data gltf bufferView);
                match embedded_image image image_data with
                | Ok img => append_texture (TextureData.update texture_data img true)
                | Raise _ => mret tt
                end
            | NoAttr => append_texture texture_data
            end
        end
      else mret tt
  end.

Definition _load_textures : M unit :=
  gltf ← get_gltf;
  for_each (GLTF2.textures gltf) (load_texture gltf).

(** *** [_setup_opengl_buffers] *)

(** One of the three blocks [if 'POSITION' in primitive['attributes']: ...],
    with the attribute's name, slot and float count. *)
Definition upload_attribute (primitive : PrimitiveData.t) (name : string)
    (index size : Z) : M unit :=
  match PrimitiveData.attributes primitive !! name with
  | Some array =>
      vbo ← glGenBuffers;
      gl_call (GL.BindBuffer GL.ARRAY_BUFFER vbo) ;;
      gl_call (GL.BufferData GL.ARRAY_BUFFER (np.nbytes_as np.float32 array)) ;;
      gl_call (GL.VertexAttribPointer index size) ;;
      gl_call (GL.EnableVertexAttribArray index) ;;
      append_vbo vbo
  | None => mret tt
  end.

Definition upload_indices (primitive : PrimitiveData.t) : M unit :=
  match PrimitiveData.indices primitive with
  | Some indices =>
      vbo ← glGenBuffers;
      gl_call (GL.BindBuffer GL.ELEMENT_ARRAY_BUFFER vbo) ;;
      gl_call (GL.BufferData GL.ELEMENT_ARRAY_BUFFER (np.nbytes_as np.uint32 indices)) ;;
      append_vbo vbo
  | None => mret tt
  end.

(** The inner [try] of the texture upload, after the texture object is
    generated and bound. *)
Definition upload_image (img : PIL.Image) (texture_id : Z) : M unit :=
  try_except
    (img ← lift (if bool_decide (PIL.mode img = "RGBA"%string) then Ok img
                 else Image_convert img "RGBA");
     img_data ← lift (np_array img);
     gl_call (GL.TexImage2D (PIL.width img) (PIL.height img) img_data) ;;
     gl_call GL.GetError ;;
     gl_call (GL.TexParameteri "TEXTURE_MIN_FILTER" "LINEAR") ;;
     gl_call (GL.TexParameteri "TEXTURE_MAG_FILTER" "LINEAR") ;;
     gl_call (GL.TexParameteri "TEXTURE_WRAP_S" "REPEAT") ;;
     gl_call (GL.TexParameteri "TEXTURE_WRAP_T" "REPEAT") ;;
     append_texture_id texture_id)
    (λ _, mret tt).

Definition upload_texture (primitive : PrimitiveData.t) : M unit :=
  s ← get_self;
  match PrimitiveData.material primitive with
  | Some material =>
      if material <? Py.len (Loader.textures s) then
        texture_data ← lift (Py.getitem (Loader.textures s) material);
        match TextureData.image texture_data with
        | Some img =>
            texture_id ← glGenTextures;
            gl_call (GL.BindTexture texture_id) ;;
            upload_image img texture_id
        | None => mret tt
        end
      else mret tt
  | None => mret tt
  end.

(** The body of the loop over primitives, with its own [try]. *)
Definition upload_primitive (primitive : PrimitiveData.t) : M unit :=
  try_except
    (vao ← glGenVertexArrays;
     gl_call (GL.BindVertexArray vao) ;;
     upload_attribute primitive "POSITION" 0 3 ;;
     upload_attribute primitive "NORMAL" 1 3 ;;
     upload_attribute primitive "TEXCOORD_0" 2 2 ;;
     upload_indices primitive ;;
     append_vao vao ;;
     upload_texture primitive ;;
     gl_call GL.GetError)
    (λ _, mret tt).

Definition _setup_opengl_buffers : M unit :=
  try_except
    (s ← get_self;
     for_each (Loader.meshes s)
       (λ mesh, for_each (MeshData.primitives mesh) upload_primitive))
    (λ _, mret tt).

(** *** [load] *)

Definition load (file_name : string) : M unit :=
  s ← get_self;
  let file_path := os_path_join (Loader.base_path s) "models" file_name in
  try_except
    (gltf ← lift (GLTF2_load file_path);
     set_gltf gltf ;;
     _clear_previous_data ;;
     _load_textures ;;
     _load_materials ;;
     _load_meshes ;;
     _setup_opengl_buffers)
    (λ e, raise e).

(** *** [render] *)

Definition render_material (shader_program : Z) (primitive : PrimitiveData.t) : M unit :=
  s ← get_self;
  match PrimitiveData.material primitive with
  | Some m =>
      if m <? Py.len (Loader.materials s) then
        material ← lift (Py.getitem (Loader.materials s) m);
        location ← glGetUniformLocation shader_program "baseColor";
        match MaterialData.baseColorFactor material with
        | [r; g; b; a] => gl_call (GL.Uniform4f location r g b a)
        | _ => raise TypeError
        end ;;
        location ← glGetUniformLocation shader_program "metallicFactor";
        gl_call (GL.Uniform1f location (MaterialData.metallicFactor material)) ;;
        location ← glGetUniformLocation shader_program "roughnessFactor";
        gl_call (GL.Uniform1f location (MaterialData.roughnessFactor material))
      else mret tt
  | None => mret tt
  end.

Definition render_texture (shader_program : Z) (primitive : PrimitiveData.t) : M unit :=
  s ← get_self;
  match PrimitiveData.material primitive with
  | Some m =>
      if (m <? Py.len (Loader.texture_ids s)) && (m <? Py.len (Loader.textures s)) then
        texture_data ← lift (Py.getitem (Loader.textures s) m);
        match TextureData.image texture_data with
        | Some _ =>
            gl_call (GL.ActiveTexture 0) ;;
            texture_id ← lift (Py.getitem (Loader.texture_ids s) m);
            gl_call (GL.BindTexture texture_id) ;;
            location ← glGetUniformLocation shader_program "texture_diffuse";
            gl_call (GL.Uniform1i location 0)
        | None => mret tt
        end
      else mret tt
  | None => mret tt
  end.

Definition render_draw (primitive : PrimitiveData.t) : M unit :=
  match PrimitiveData.indices primitive with
  | Some indices => gl_call (GL.DrawElements (np.len indices))
  | None =>
      match PrimitiveData.attributes primitive !! "POSITION" with
      | Some positions => gl_call (GL.DrawArrays 0 (np.len positions))
      | None => raise (KeyError "POSITION")
      end
  end.

(** The body of the loop over [enumerate(mesh['primitives'])] of mesh [i]. *)
Definition render_primitive (shader_program : Z) (i : Z) (mesh : MeshData.t)
    (jp : Z * PrimitiveData.t) : M unit :=
  s ← get_self;
  let vao_index := i * Py.len (MeshData.primitives mesh) + jp.1 in
  if Py.len (Loader.vaos s) <=? vao_index then mret tt
  else
    vao ← lift (Py.getitem (Loader.vaos s) vao_index);
    gl_call (GL.BindVertexArray vao) ;;
    render_material shader_program jp.2 ;;
    render_texture shader_program jp.2 ;;
    render_draw jp.2 ;;
    gl_call (GL.BindVertexArray 0).

Definition render (shader_program : Z) : M unit :=
  s ← get_self;
  for_each (enumerate (Loader.meshes s))
    (λ im, for_each (enumerate (MeshData.primitives im.2))
             (render_primitive shader_program im.1 im.2)).

(** *** [cleanup] *)

Definition cleanup : M unit :=
  s ← get_self;
  (if bool_decide (Loader.vaos s = []) then mret tt
   else gl_call (GL.DeleteVertexArrays (Py.len (Loader.vaos s)) (Loader.vaos s))) ;;
  (if bool_decide (Loader.vbos s = []) then mret tt
   else gl_call (GL.DeleteBuffers (Py.len (Loader.vbos s)) (Loader.vbos s))) ;;
  (if bool_decide (Loader.texture_ids s = []) then mret tt
   else gl_call (GL.DeleteTextures (Loader.texture_ids s))).

End GLBLoader.

(** * Notions the properties are stated with *)

(** Decoding an attribute's accessor: its bytes, then its array. *)
Definition decode_attribute (gltf : GLTF2.t) (accessor : Accessor.t) : result np.ndarray :=
  buffer_data ← attribute_bytes gltf accessor;
  attribute_array accessor buffer_data.

(** The same accessor with another component-type code. *)
Definition with_componentType (code : option Z) (a : Accessor.t) : Accessor.t :=
  Accessor.mk (Accessor.bufferView a) (Accessor.byteOffset a) code
    (Accessor.count a) (Accessor.type a).

(** The accessor's view and the decoded bytes of the view's buffer. *)
Definition accessor_buffer (gltf : GLTF2.t) (accessor : Accessor.t)
    (buffer_view : BufferView.t) (data : list byte) : Prop :=
  Py.getitem_opt (GLTF2.bufferViews gltf) (Accessor.bufferView accessor) = Ok buffer_view
  ∧ ∃ buffer, Py.getitem_opt (GLTF2.buffers gltf) (BufferView.buffer buffer_view) = Ok buffer
              ∧ Buffer.data buffer = Some data.

(** Where the byte window starts: bufferView.byteOffset + accessor.byteOffset. *)
Definition window_start (buffer_view : BufferView.t) (accessor : Accessor.t) : Z :=
  Py.or0 (BufferView.byteOffset buffer_view) + Py.or0 (Accessor.byteOffset accessor).

(** Its length as an attribute: count * componentsPerElement * componentSize. *)
Definition attribute_window (accessor : Accessor.t) : Z :=
  Accessor.count accessor * component_count (Accessor.type accessor)
  * np.itemsize (_get_numpy_dtype (Accessor.componentType accessor)).

(** Its length as an index list: count * componentSize. *)
Definition index_window (accessor : Accessor.t) : Z :=
  Accessor.count accessor * np.itemsize (_get_numpy_dtype (Accessor.componentType accessor)).

(** The bytes the buffer still has from [start] on. *)
Definition available (data : list byte) (start : Z) : Z := Z.max 0 (Py.len data - start).

(** * A small container used to run the loader

    One 24-byte buffer behind one view; accessors that fit, that run past the
    end of the buffer, and that start off the element grid. *)

Module Example.

Definition bytes24 : list byte := replicate 24 x00.

Definition view : BufferView.t := BufferView.mk (Some 0) (Some 0) (Some 24).

(** 2 x VEC3 float: 24 bytes, fits. *)
Definition positions : Accessor.t := Accessor.mk (Some 0) None (Some 5126) 2 "VEC3".
(** 3 x VEC3 float: 36 bytes, 12 more than the buffer has. *)
Definition too_long : Accessor.t := Accessor.mk (Some 0) None (Some 5126) 3 "VEC3".
(** 2 x VEC3 float from byte 2: 22 bytes are left, not a multiple of 4. *)
Definition misaligned : Accessor.t := Accessor.mk (Some 0) (Some 2) (Some 5126) 2 "VEC3".
(** 36 x uint16: 72 bytes wanted, 24 there. *)
Definition long_indices : Accessor.t := Accessor.mk (Some 0) None (Some 5123) 36 "SCALAR".
(** 36 x uint16 from byte 1: 23 bytes are left, an odd number. *)
Definition odd_indices : Accessor.t := Accessor.mk (Some 0) (Some 1) (Some 5123) 36 "SCALAR".
(** 2 x VEC3 of a component type outside the table. *)
Definition unknown_type : Accessor.t := Accessor.mk (Some 0) None (Some 9999) 2 "VEC3".
(** 6 x uint16: 12 bytes, fits. *)
Definition indices6 : Accessor.t := Accessor.mk (Some 0) None (Some 5123) 6 "SCALAR".

Definition accessors : list Accessor.t :=
  [positions; too_long; misaligned; long_indices; odd_indices; unknown_type; indices6].

(** The container with the given images, textures, materials and meshes. *)
Definition container (images : list Image.t) (textures : list Texture.t)
    (materials : list Material.t) (meshes : list Mesh.t) : GLTF2.t :=
  GLTF2.mk [Buffer.mk None (Some bytes24)] [view] accessors images textures materials meshes.

Definition bare : GLTF2.t := container [] [] [] [].

End Example.

Section Notions.

Context `{Libraries}.


End Notions.

(** * Files and libraries used to run the loader *)

Module Scene.

Definition earth_png : PIL.Image := PIL.mk "RGBA" 1 1 [x01; x02; x03; xff].
Definition moon_png : PIL.Image := PIL.mk "RGBA" 1 1 [x0a; x0b; x0c; xff].

Definition external (uri : string) : Image.t :=
  Image.mk (Attr (Some uri)) (Attr None) (Attr None) NoAttr NoAttr.

(** An embedded image of MIME type image/unknown without width and height. *)
Definition unknown_embedded : Image.t :=
  Image.mk (Attr None) (Attr (Some 0)) (Attr (Some "image/unknown"%string)) NoAttr NoAttr.

(** An image with neither a uri nor a bufferView index. *)
Definition dangling : Image.t :=
  Image.mk (Attr None) (Attr None) (Attr None) NoAttr NoAttr.

Definition indexed (attributes : list (string * option Z)) (material : option Z)
    : Primitive.t :=
  Primitive.mk attributes (Some 6) material.

(** planet.glb: two textures (earth, moon), two materials, one mesh of three
    indexed primitives: the first without material, the second with
    material 1, the third with material 0. *)
Definition planet : GLTF2.t :=
  Example.container
    [external "earth.png"; external "moon.png"]
    [Texture.mk (Some 0) (Some "earth"%string); Texture.mk (Some 1) None]
    [Material.mk (Some "rock"%string) None; Material.mk None None]
    [Mesh.mk (Some "planet"%string)
       [indexed [("POSITION", Some 0)]%string None;
        indexed [("POSITION", Some 0)]%string (Some 1);
        indexed [("NORMAL", Some 0); ("POSITION", Some 0)]%string (Some 0)]].

(** normals.glb: one mesh with one primitive that has a NORMAL attribute
    only, no POSITION and no index list. *)
Definition normals : GLTF2.t :=
  Example.container [] [] []
    [Mesh.mk None [Primitive.mk [("NORMAL", Some 0)]%string None None]].

(** textures.glb: a texture whose file is missing between two good ones,
    and one whose embedded image cannot be decoded. *)
Definition textures : GLTF2.t :=
  Example.container
    [external "earth.png"; external "missing.png"; external "moon.png"; unknown_embedded]
    [Texture.mk (Some 0) None; Texture.mk (Some 1) None; Texture.mk (Some 3) None;
     Texture.mk (Some 2) None]
    [] [].

(** The files under assets/models and what the libraries make of them. All
    OpenGL calls return. *)
Definition libs : Libraries := {|
  os_path_join a b c := (a +:+ "/" +:+ b +:+ "/" +:+ c)%string;
  GLTF2_load path :=
    if String.eqb path "assets/models/planet.glb" then Ok planet
    else if String.eqb path "assets/models/normals.glb" then Ok normals
    else if String.eqb path "assets/models/textures.glb" then Ok textures
    else Raise OSError;
  Image_open path :=
    if String.eqb path "assets/models/earth.png" then Ok earth_png
    else if String.eqb path "assets/models/moon.png" then Ok moon_png
    else Raise OSError;
  Image_open_bytes data := Raise UnidentifiedImageError;
  Image_frombytes width height data :=
    if Py.len data =? width * height * 4
    then Ok (PIL.mk "RGBA" width height data)
    else Raise ValueError;
  Image_convert img mode := Ok (PIL.mk mode (PIL.width img) (PIL.height img) (PIL.pixels img));
  np_array img := Ok (PIL.pixels img);
  uniform_location program name := 0;
  gl_fault n := false |}.

(** A new loader in a new context. *)
Definition start : World := mkWorld (Loader.__init__ "assets") GL.init.

(** The world after a method call, and what the call returned. *)
Definition after {A} (m : M A) (w : World) : World := (m w).1.
Definition outcome {A} (m : M A) (w : World) : result A := (m w).2.

End Scene.

(** The number of primitives of the assembled meshes: the sum of P. *)
Definition primitive_count (meshes : list MeshData.t) : nat :=
  sum_list (map (λ mesh, length (MeshData.primitives mesh)) meshes).

(** How many handles the loader has recorded. *)
Definition vao_count (w : World) : nat := length (Loader.vaos (self w)).
Definition texture_id_count (w : World) : nat := length (Loader.texture_ids (self w)).

(** A method body that, returning or raising, leaves the recorded
    vertex-array handles alone and records at most [dt] texture handles. *)
Definition records_at_most {A} (dt : nat) (m : M A) : Prop :=
  ∀ w, vao_count (m w).1 = vao_count w
       ∧ (texture_id_count w ≤ texture_id_count (m w).1 ≤ texture_id_count w + dt)%nat.

(** A method body that returns and records no handle of these two kinds. *)
Definition returns_quietly {A} (m : M A) : Prop :=
  ∀ w, ∃ w' a, m w = (w', Ok a)
               ∧ vao_count w' = vao_count w
               ∧ texture_id_count w' = texture_id_count w.

(** A method body that, returning or raising, leaves a field of the loader
    as it was. *)
Definition keeps {A X} (field : Loader.t → X) (m : M A) : Prop :=
  ∀ w, field (self (m w).1) = field (self w).

(** The delete calls [cleanup] makes for a loader: one per non-empty handle
    list. *)
Definition cleanup_calls (s : Loader.t) : list GL.call :=
  (if bool_decide (Loader.vaos s = []) then []
   else [GL.DeleteVertexArrays (Py.len (Loader.vaos s)) (Loader.vaos s)])
  ++ (if bool_decide (Loader.vbos s = []) then []
      else [GL.DeleteBuffers (Py.len (Loader.vbos s)) (Loader.vbos s)])
  ++ (if bool_decide (Loader.texture_ids s = []) then []
      else [GL.DeleteTextures (Loader.texture_ids s)]).

(** The context after a list of calls that all return. *)
Definition run_all (calls : list GL.call) (g : GL.state) : GL.state :=
  foldl (λ g c, GL.run c g) g calls.

(** The calls a method made: those the context has recorded since [w]. *)
Definition calls_since (w w' : World) : list GL.call :=
  drop (length (GL.trace (gl w))) (GL.trace (gl w')).

(** The textures bound by a list of calls. *)
Definition bound_textures (calls : list GL.call) : list Z :=
  omap (λ c, match c with GL.BindTexture tex => Some tex | _ => None end) calls.

Definition is_delete (c : GL.call) : bool :=
  match c with
  | GL.DeleteVertexArrays _ _ | GL.DeleteBuffers _ _ | GL.DeleteTextures _ => true
  | _ => false
  end.

(** The primitive at place [j] of mesh [i] of the loader. *)
Definition primitive_at (w : World) (i j : nat) : option PrimitiveData.t :=
  mesh ← Loader.meshes (self w) !! i; MeshData.primitives mesh !! j.

Module Run.

#[local] Existing Instance Scene.libs.

(** The loader after loading planet.glb, and after loading normals.glb. *)
Definition planet : World := Scene.after (load "planet.glb") Scene.start.
Definition normals : World := Scene.after (load "normals.glb") Scene.start.

(** planet.glb parsed and decoded, before the upload. *)
Definition assembled : World :=
  Scene.after (set_gltf Scene.planet ;; _clear_previous_data ;; _load_textures ;;
               _load_materials ;; _load_meshes) Scene.start.

End Run.

(** * Notions for the assembled data *)

(** An array views whole elements: as many bytes as elements times the size
    of one. *)
Definition whole_elements (a : np.ndarray) : Prop :=
  Py.len (np.buffer a) = np.size a * np.itemsize (np.dtype_of a).

(** Every array an assembled primitive keeps views whole elements. *)
Definition primitive_arrays_whole (p : PrimitiveData.t) : Prop :=
  (∀ name a, PrimitiveData.attributes p !! name = Some a → whole_elements a)
  ∧ (∀ a, PrimitiveData.indices p = Some a → whole_elements a).

(** What a mesh record of the loader has of the mesh it was assembled from:
    its name when it has a non-empty one, and the materials of its
    primitives, in order, some primitives possibly missing. *)
Definition mesh_record_of (md : MeshData.t) (m : Mesh.t) : Prop :=
  (length (MeshData.primitives md) ≤ length (Mesh.primitives m))%nat
  ∧ map PrimitiveData.material (MeshData.primitives md)
    `sublist_of` map Primitive.material (Mesh.primitives m)
  ∧ (∀ n, Mesh.name m = Some n → n ≠ ""%string → MeshData.name md = n).

(** What a material record of the loader has of the container's material:
    its factors, or the defaults when it has no pbrMetallicRoughness. *)
Definition material_record_of (md : MaterialData.t) (m : Material.t) : Prop :=
  MaterialData.baseColorFactor md
  = from_option PbrMetallicRoughness.baseColorFactor [1.0; 1.0; 1.0; 1.0]%float
      (Material.pbrMetallicRoughness m)
  ∧ MaterialData.metallicFactor md
    = from_option PbrMetallicRoughness.metallicFactor 0.5%float
        (Material.pbrMetallicRoughness m)
  ∧ MaterialData.roughnessFactor md
    = from_option PbrMetallicRoughness.roughnessFactor 0.5%float
        (Material.pbrMetallicRoughness m)
  ∧ (∀ n, Material.name m = Some n → n ≠ ""%string → MaterialData.name md = n).

Module Stage.

#[local] Existing Instance Scene.libs.

(** A new loader on which planet.glb has just been parsed and set. *)
Definition parsed : World := Scene.after (set_gltf Scene.planet) Scene.start.

End Stage.

(** A texture record as a successful decode leaves it: the image with its
    width and height, and the embedded flag. *)
Definition texture_record_complete (td : TextureData.t) : Prop :=
  ∃ img, TextureData.image td = Some img
         ∧ TextureData.width td = Some (PIL.width img)
         ∧ TextureData.height td = Some (PIL.height img)
         ∧ is_Some (TextureData.embedded td).

(** * Notions for the upload *)

Definition vbo_count (w : World) : nat := length (Loader.vbos (self w)).

(** 1 when the primitive has the attribute, 0 otherwise. *)
Definition has_attribute (p : PrimitiveData.t) (name : string) : nat :=
  match PrimitiveData.attributes p !! name with Some _ => 1 | None => 0 end.

(** The buffers the upload makes for a primitive: one for each of POSITION,
    NORMAL and TEXCOORD_0 that is present, and one for the index list. *)
Definition buffers_of (p : PrimitiveData.t) : nat :=
  has_attribute p "POSITION" + has_attribute p "NORMAL" + has_attribute p "TEXCOORD_0"
  + match PrimitiveData.indices p with Some _ => 1 | None => 0 end.

Definition buffer_count (meshes : list MeshData.t) : nat :=
  sum_list (map (λ mesh, sum_list (map buffers_of (MeshData.primitives mesh))) meshes).

(** A method body that, returning or raising, records at most one
    vertex-array handle, and a texture handle only with it. *)
Definition records_a_primitive_at_most {A} (m : M A) : Prop :=
  ∀ w, ∃ dv dt,
    vao_count (m w).1 = (vao_count w + dv)%nat
    ∧ texture_id_count (m w).1 = (texture_id_count w + dt)%nat
    ∧ (dt ≤ dv ≤ 1)%nat.

(** A method body that returns, having recorded exactly [n] buffer handles. *)
Definition returns_with_buffers {A} (n : nat) (m : M A) : Prop :=
  ∀ w, ∃ w' a, m w = (w', Ok a) ∧ vbo_count w' = (vbo_count w + n)%nat.

(** A method body that, returning or raising, leaves the OpenGL context as
    it was: it has made no OpenGL call. *)
Definition leaves_context {A} (m : M A) : Prop := ∀ w, gl (m w).1 = gl w.

Module Broken.

(** broken.glb: a mesh whose POSITION names accessor 99 of 7. *)
Definition container : GLTF2.t :=
  Example.container [] [] []
    [Mesh.mk None [Primitive.mk [("POSITION", Some 99)]%string None None]].

(** The libraries of [Scene], with a parser that returns this container. *)
Definition libs : Libraries := {|
  os_path_join := os_path_join (Libraries:=Scene.libs);
  GLTF2_load path := Ok container;
  Image_open := Image_open (Libraries:=Scene.libs);
  Image_open_bytes := Image_open_bytes (Libraries:=Scene.libs);
  Image_frombytes := Image_frombytes (Libraries:=Scene.libs);
  Image_convert := Image_convert (Libraries:=Scene.libs);
  np_array := np_array (Libraries:=Scene.libs);
  uniform_location := uniform_location (Libraries:=Scene.libs);
  gl_fault := gl_fault (Libraries:=Scene.libs) |}.

End Broken.

(** A method body that changes neither the loader nor the objects of the
    context: it creates nothing and deletes nothing. *)
Definition draws_only {A} (m : M A) : Prop :=
  ∀ w, self (m w).1 = self w
       ∧ GL.vertex_arrays (gl (m w).1) = GL.vertex_arrays (gl w)
       ∧ GL.buffers (gl (m w).1) = GL.buffers (gl w)
       ∧ GL.textures (gl (m w).1) = GL.textures (gl w)
       ∧ GL.images (gl (m w).1) = GL.images (gl w).

(** The calls [render] makes: none of them creates or deletes an object. *)
Definition is_draw_call (c : GL.call) : bool :=
  match c with
  | GL.BindVertexArray _ | GL.BindTexture _ | GL.GetUniformLocation _ _
  | GL.Uniform4f _ _ _ _ _ | GL.Uniform1f _ _ | GL.Uniform1i _ _
  | GL.ActiveTexture _ | GL.DrawElements _ | GL.DrawArrays _ _ => true
  | _ => false
  end.

(** [w'] is [w] after an upload: the handles recorded since [w], and with
    them exactly the objects created in the context since [w]. *)
Definition uploaded (w w' : World) : Prop :=
  ∃ lv lb lt,
    Loader.vaos (self w') = Loader.vaos (self w) ++ lv
    ∧ Loader.vbos (self w') = Loader.vbos (self w) ++ lb
    ∧ Loader.texture_ids (self w') = Loader.texture_ids (self w) ++ lt
    ∧ GL.vertex_arrays (gl w') = list_to_set lv ∪ GL.vertex_arrays (gl w)
    ∧ GL.buffers (gl w') = list_to_set lb ∪ GL.buffers (gl w)
    ∧ GL.textures (gl w') = list_to_set lt ∪ GL.textures (gl w).

(** A method body that returns, every object it created being recorded. *)
Definition uploads {A} (m : M A) : Prop :=
  ∀ w, ∃ w' a, m w = (w', Ok a) ∧ uploaded w w'.

(** The calls that neither create nor delete an object. *)
Definition is_neutral (c : GL.call) : bool :=
  match c with
  | GL.GenVertexArrays _ | GL.GenBuffers _ | GL.GenTextures _
  | GL.DeleteVertexArrays _ _ | GL.DeleteBuffers _ _ | GL.DeleteTextures _ => false
  | _ => true
  end.

(** * Images that cannot be resolved, primitives of the container *)


(** The primitives of the container: the sum of P over its meshes. *)
Definition container_primitive_count (gltf : GLTF2.t) : nat :=
  sum_list (map (λ mesh, length (Mesh.primitives mesh)) (GLTF2.meshes gltf)).

Module Dangling.

(** An embedded PNG image behind the given bufferView index. *)
Definition embedded (bufferView : Z) : Image.t :=
  Image.mk (Attr None) (Attr (Some bufferView)) (Attr (Some "image/png"%string))
    NoAttr NoAttr.

(** dangling.glb: between two textures with good external images, a texture
    whose embedded image names bufferView 5 of 1; and one mesh. *)
Definition container : GLTF2.t :=
  Example.container
    [Scene.external "earth.png"; embedded 5; Scene.external "moon.png"]
    [Texture.mk (Some 0) None; Texture.mk (Some 1) None; Texture.mk (Some 2) None]
    []
    [Mesh.mk None [Primitive.mk [("POSITION", Some 0)]%string None None]].

(** The libraries of [Scene], with a parser that returns this container. *)
Definition libs : Libraries := {|
  os_path_join := os_path_join (Libraries:=Scene.libs);
  GLTF2_load path := Ok container;
  Image_open := Image_open (Libraries:=Scene.libs);
  Image_open_bytes := Image_open_bytes (Libraries:=Scene.libs);
  Image_frombytes := Image_frombytes (Libraries:=Scene.libs);
  Image_convert := Image_convert (Libraries:=Scene.libs);
  np_array := np_array (Libraries:=Scene.libs);
  uniform_location := uniform_location (Libraries:=Scene.libs);
  gl_fault := gl_fault (Libraries:=Scene.libs) |}.

End Dangling.

Module Dropped.

(** dropped.glb: one mesh of two primitives with POSITION; the index list of
    the second starts at byte 1, so 23 bytes are left for 16-bit indices. *)
Definition container : GLTF2.t :=
  Example.container [] [] []
    [Mesh.mk None
       [Primitive.mk [("POSITION", Some 0)]%string (Some 6) None;
        Primitive.mk [("POSITION", Some 0)]%string (Some 4) None]].

(** The libraries of [Scene], with a parser that returns this container. *)
Definition libs : Libraries := {|
  os_path_join := os_path_join (Libraries:=Scene.libs);
  GLTF2_load path := Ok container;
  Image_open := Image_open (Libraries:=Scene.libs);
  Image_open_bytes := Image_open_bytes (Libraries:=Scene.libs);
  Image_frombytes := Image_frombytes (Libraries:=Scene.libs);
  Image_convert := Image_convert (Libraries:=Scene.libs);
  np_array := np_array (Libraries:=Scene.libs);
  uniform_location := uniform_location (Libraries:=Scene.libs);
  gl_fault := gl_fault (Libraries:=Scene.libs) |}.

End Dropped.

(** * Properties *)

(** ** Python lists *)

Lemma slice_inside {A} (l : list A) (a n : Z) :
  0 ≤ a → 0 ≤ n → a + n ≤ Py.len l →
  Py.len (Py.slice l a (a + n)) = n.
Proof.
  intros Ha Hn Hfit. unfold Py.slice, Py.clamp, Py.len in *.
  destruct (a <? 0) eqn:E1; [lia|].
  destruct (a + n <? 0) eqn:E2; [lia|].
  rewrite length_take, length_drop. lia.
Qed.

Lemma slice_beyond {A} (l : list A) (a n : Z) :
  0 ≤ a → Py.len l < a + n →
  Py.len (Py.slice l a (a + n)) = Z.max 0 (Py.len l - a).
Proof.
  intros Ha Hover. unfold Py.slice, Py.clamp, Py.len in *.
  destruct (a <? 0) eqn:E1; [lia|].
  destruct (a + n <? 0) eqn:E2; [lia|].
  rewrite length_take, length_drop. lia.
Qed.

Lemma slice_length_le {A} (l : list A) (a b : Z) :
  Py.len (Py.slice l a b) ≤ Py.len l.
Proof.
  unfold Py.slice, Py.len. rewrite length_take, length_drop. lia.
Qed.

(** ** The decoder's tables *)

Lemma itemsize_pos (d : np.dtype) : 0 < np.itemsize d.
Proof. destruct d; simpl; lia. Qed.

Lemma type_map_unknown (code : Z) :
  code ∉ [5120; 5121; 5122; 5123; 5125; 5126] → type_map !! code = None.
Proof.
  intros H. unfold type_map. apply not_elem_of_list_to_map_1.
  simpl. exact H.
Qed.

(** ** The typed accessor decoder *)

Lemma attribute_bytes_resolved gltf accessor buffer_view data :
  accessor_buffer gltf accessor buffer_view data →
  attribute_bytes gltf accessor =
    Ok (Py.slice data (window_start buffer_view accessor)
          (window_start buffer_view accessor + attribute_window accessor)).
Proof.
  intros [Hbv (buffer & Hbuf & Hdata)].
  unfold attribute_bytes. rewrite Hbv. simpl. rewrite Hbuf. simpl.
  rewrite Hdata. reflexivity.
Qed.

Lemma attribute_bytes_not_ValueError gltf accessor :
  attribute_bytes gltf accessor ≠ Raise ValueError.
Proof.
  unfold attribute_bytes.
  destruct (Py.getitem_opt (GLTF2.bufferViews gltf) _) as [bv|e] eqn:Hbv; simpl.
  - destruct (Py.getitem_opt (GLTF2.buffers gltf) _) as [b|e] eqn:Hb; simpl.
    + destruct (Buffer.data b); simpl; congruence.
    + intros [= ->]. revert Hb. unfold Py.getitem_opt, Py.getitem.
      repeat case_match; congruence.
  - intros [= ->]. revert Hbv. unfold Py.getitem_opt, Py.getitem.
    repeat case_match; congruence.
Qed.

(** The attribute loop stores what [decode_attribute] yields, skips the
    attribute on a ValueError and lets any other exception through. *)
Lemma load_attribute_decode gltf attributes name accessor_idx accessor :
  Py.getitem (GLTF2.accessors gltf) accessor_idx = Ok accessor →
  load_attribute gltf attributes (name, Some accessor_idx) =
    match decode_attribute gltf accessor with
    | Ok array => Ok (<[name := array]> attributes)
    | Raise ValueError => Ok attributes
    | Raise e => Raise e
    end.
Proof.
  intros Hacc. unfold load_attribute, decode_attribute. simpl. rewrite Hacc. simpl.
  pose proof (attribute_bytes_not_ValueError gltf accessor) as Hne.
  destruct (attribute_bytes gltf accessor) as [bytes|e]; simpl.
  - destruct (attribute_array accessor bytes) as [array|e]; simpl; [done|].
    by destruct e.
  - destruct e; congruence.
Qed.

(** C7: component-type code 5126 and every code outside the fixed map decode
    to 32-bit float: the element type chosen is float32, every array decoded
    from such an accessor is a float32 array, and the decode is the very one
    code 5126 gives for the same accessor (same array, hence same shape). *)
Theorem unknown_component_type_decodes_as_float32 gltf accessor code :
  code = 5126 ∨ code ∉ [5120; 5121; 5122; 5123; 5125; 5126] →
  Accessor.componentType accessor = Some code →
  _get_numpy_dtype (Some code) = np.float32
  ∧ (∀ array, decode_attribute gltf accessor = Ok array →
              np.dtype_of array = np.float32)
  ∧ decode_attribute gltf accessor
    = decode_attribute gltf (with_componentType (Some 5126) accessor)
  ∧ (∀ array array',
       decode_attribute gltf accessor = Ok array →
       decode_attribute gltf (with_componentType (Some 5126) accessor) = Ok array' →
       np.shape array = np.shape array').
Proof.
  intros Hcode Hct.
  assert (Hd : _get_numpy_dtype (Some code) = np.float32).
  { destruct Hcode as [-> | Hout]; [reflexivity|].
    unfold _get_numpy_dtype. by rewrite type_map_unknown. }
  assert (Heq : decode_attribute gltf accessor
                = decode_attribute gltf (with_componentType (Some 5126) accessor)).
  { unfold decode_attribute, attribute_bytes, attribute_array. simpl.
    rewrite Hct, Hd. reflexivity. }
  split; [exact Hd|]. split; [|split; [exact Heq|]].
  - intros array. unfold decode_attribute, attribute_array.
    rewrite Hct, Hd.
    destruct (attribute_bytes gltf accessor) as [bytes|e]; simpl; [|done].
    unfold np.frombuffer. case_match; simpl; [|done].
    case_match; [|by intros [= <-]].
    unfold np.reshape. case_match; [|done]. by intros [= <-].
  - intros array array' H1 H2. rewrite Heq, H2 in H1. by injection H1 as ->.
Qed.

Lemma frombuffer_multiple (b : list byte) (d : np.dtype) (n : Z) :
  Py.len b = n * np.itemsize d →
  np.frombuffer b d = Ok (np.mk d [n] b).
Proof.
  intros H. unfold np.frombuffer. pose proof (itemsize_pos d).
  rewrite H, Z_mod_mult, Z_div_mult by lia. reflexivity.
Qed.

(** C1: for an accessor whose byte window fits inside the decoded buffer,
    the attribute loop stores an array of shape (count, components of the
    shape), so of count times that many elements, which views exactly the
    bytes of the window; the bytes read end inside the buffer. *)
Theorem valid_accessor_attribute_shape gltf attributes name accessor_idx
    accessor buffer_view data :
  Py.getitem (GLTF2.accessors gltf) accessor_idx = Ok accessor →
  accessor_buffer gltf accessor buffer_view data →
  0 ≤ window_start buffer_view accessor →
  0 ≤ Accessor.count accessor →
  window_start buffer_view accessor + attribute_window accessor ≤ Py.len data →
  ∃ array,
    load_attribute gltf attributes (name, Some accessor_idx)
      = Ok (<[name := array]> attributes)
    ∧ np.shape array
      = [Accessor.count accessor; component_count (Accessor.type accessor)]
    ∧ np.size array
      = Accessor.count accessor * component_count (Accessor.type accessor)
    ∧ np.buffer array
      = Py.slice data (window_start buffer_view accessor)
          (window_start buffer_view accessor + attribute_window accessor)
    ∧ Py.len (np.buffer array) = attribute_window accessor
    ∧ window_start buffer_view accessor + Py.len (np.buffer array) ≤ Py.len data.
Proof.
  intros Hacc Hbuf Hstart Hcount Hfit.
  set (cc := component_count (Accessor.type accessor)) in *.
  set (d := _get_numpy_dtype (Accessor.componentType accessor)).
  assert (Hcc : 0 ≤ cc).
  { unfold cc, component_count, component_count_map.
    destruct (list_to_map _ !! _) as [v|] eqn:E; simpl; [|lia].
    apply elem_of_list_to_map_2 in E.
    repeat (apply elem_of_cons in E; destruct E as [E|E];
            [injection E as _ ->; lia|]).
    by apply elem_of_nil in E. }
  assert (Hwin : 0 ≤ attribute_window accessor).
  { unfold attribute_window. fold cc d. pose proof (itemsize_pos d). nia. }
  pose proof (slice_inside data _ _ Hstart Hwin Hfit) as Hlen.
  set (bytes := Py.slice data _ _) in *.
  exists (np.mk d [Accessor.count accessor; cc] bytes).
  rewrite (load_attribute_decode _ _ _ _ _ Hacc).
  unfold decode_attribute. rewrite (attribute_bytes_resolved _ _ _ _ Hbuf). simpl.
  fold bytes. unfold attribute_array. fold cc d.
  rewrite (frombuffer_multiple bytes d (Accessor.count accessor * cc))
    by (rewrite Hlen; reflexivity).
  simpl. unfold np.len. simpl. rewrite Z.eqb_refl.
  unfold np.reshape, np.size. simpl.
  replace (Accessor.count accessor * (cc * 1) =? Accessor.count accessor * cc * 1)
    with true by (symmetry; apply Z.eqb_eq; lia).
  simpl. repeat split; try done; lia.
Qed.

Lemma valid_accessor_attribute_shape_witness :
  ∃ array,
    load_attribute Example.bare ∅ ("POSITION", Some 0) = Ok {["POSITION" := array]}
    ∧ np.shape array = [2; 3].
Proof.
  destruct (valid_accessor_attribute_shape Example.bare ∅ "POSITION" 0
              Example.positions Example.view Example.bytes24)
    as (array & Hload & Hshape & _).
  - reflexivity.
  - split; [reflexivity|]. eexists. split; reflexivity.
  - vm_compute. discriminate.
  - vm_compute. discriminate.
  - vm_compute. discriminate.
  - exists array. split; [exact Hload | exact Hshape].
Defined.

Lemma unknown_component_type_decodes_as_float32_witness :
  _get_numpy_dtype (Some 9999) = np.float32
  ∧ decode_attribute Example.bare Example.unknown_type
    = decode_attribute Example.bare Example.positions.
Proof.
  destruct (unknown_component_type_decodes_as_float32 Example.bare
              Example.unknown_type 9999) as (Hd & _ & Heq & _).
  - right. vm_compute. intros H. repeat (inversion H as [|? ? ? H']; subst; clear H; rename H' into H).
  - reflexivity.
  - split; [exact Hd | exact Heq].
Defined.

(** ** Windows that run past the end of the buffer *)

(** Past the end, [np.frombuffer] sees the bytes that are left: it refuses
    them when they are not whole elements, and otherwise the loop keeps the
    shorter array, flat unless its length happens to be the expected one. *)
Lemma decode_attribute_beyond gltf accessor buffer_view data :
  accessor_buffer gltf accessor buffer_view data →
  0 ≤ window_start buffer_view accessor →
  Py.len data < window_start buffer_view accessor + attribute_window accessor →
  let start := window_start buffer_view accessor in
  let d := _get_numpy_dtype (Accessor.componentType accessor) in
  let n := available data start / np.itemsize d in
  let bytes := Py.slice data start (start + attribute_window accessor) in
  Py.len bytes = available data start
  ∧ decode_attribute gltf accessor =
      if available data start mod np.itemsize d =? 0
      then Ok (np.mk d
                 (if n =? Accessor.count accessor * component_count (Accessor.type accessor)
                  then [Accessor.count accessor; component_count (Accessor.type accessor)]
                  else [n])
                 bytes)
      else Raise ValueError.
Proof.
  intros Hbuf Hstart Hover start d n bytes.
  pose proof (slice_beyond data _ _ Hstart Hover) as Hlen. fold start bytes in Hlen.
  split; [exact Hlen|].
  unfold decode_attribute. rewrite (attribute_bytes_resolved _ _ _ _ Hbuf). simpl.
  fold start bytes. unfold attribute_array, np.frombuffer. fold d.
  rewrite Hlen. fold (available data start).
  destruct (available data start mod np.itemsize d =? 0) eqn:Hmod; simpl; [|done].
  unfold np.len. simpl. fold n.
  destruct (n =? _) eqn:Hn; [|done].
  unfold np.reshape, np.size. simpl. apply Z.eqb_eq in Hn.
  replace (_ =? _) with true by (symmetry; apply Z.eqb_eq; lia). done.
Qed.

(** C2, as the code has it: when the window of an accessor runs past the end
    of the buffer, nothing is raised and the loop goes on. The attribute is
    left out only when the bytes that are left are not whole elements;
    otherwise the array of the elements that are left is stored under the
    attribute's name, fewer than count times components of them when the
    window is not empty, and then flat. An index list whose bytes that are
    left are whole elements is stored cut short in the same way. *)
Theorem window_beyond_buffer_is_cut_short gltf attributes name accessor_idx
    accessor buffer_view data :
  Py.getitem (GLTF2.accessors gltf) accessor_idx = Ok accessor →
  accessor_buffer gltf accessor buffer_view data →
  0 ≤ window_start buffer_view accessor →
  let start := window_start buffer_view accessor in
  let d := _get_numpy_dtype (Accessor.componentType accessor) in
  let n := available data start / np.itemsize d in
  (Py.len data < start + attribute_window accessor →
     is_Ok (load_attribute gltf attributes (name, Some accessor_idx)) = true
     ∧ (available data start mod np.itemsize d ≠ 0 →
          load_attribute gltf attributes (name, Some accessor_idx) = Ok attributes)
     ∧ (available data start mod np.itemsize d = 0 →
          ∃ array,
            load_attribute gltf attributes (name, Some accessor_idx)
              = Ok (<[name := array]> attributes)
            ∧ np.buffer array = Py.slice data start (start + attribute_window accessor)
            ∧ np.size array = n
            ∧ (0 < attribute_window accessor →
                 np.shape array = [n]
                 ∧ n < Accessor.count accessor * component_count (Accessor.type accessor))))
  ∧ (Py.len data < start + index_window accessor →
     available data start mod np.itemsize d = 0 →
       (∀ primitives attribute_names material stored,
          load_attributes gltf attribute_names ∅ = Ok stored →
          load_primitive gltf primitives
            (Primitive.mk attribute_names (Some accessor_idx) material)
          = Ok (primitives ++
                [PrimitiveData.mk stored
                   (Some (np.mk d [n] (Py.slice data start (start + index_window accessor))))
                   material]))
       ∧ (0 < index_window accessor → n < Accessor.count accessor)).
Proof.
  intros Hacc Hbuf Hstart start d n. pose proof (itemsize_pos d) as Hisz. split.
  - intros Hover.
    destruct (decode_attribute_beyond _ _ _ _ Hbuf Hstart Hover) as [Hlen Hdec].
    fold start d n in Hlen, Hdec.
    rewrite (load_attribute_decode _ _ _ _ _ Hacc), Hdec.
    destruct (available data start mod np.itemsize d =? 0) eqn:Hmod.
    + apply Z.eqb_eq in Hmod. split; [done|]. split; [done|]. intros _.
      eexists. split; [reflexivity|]. simpl. split; [done|].
      assert (Hn : 0 < attribute_window accessor →
                   n < Accessor.count accessor * component_count (Accessor.type accessor)).
      { intros Hpos. unfold n. apply Z.div_lt_upper_bound; [lia|].
        unfold attribute_window in *. fold d in Hpos, Hover.
        unfold available. lia. }
      split.
      * unfold np.size. simpl. destruct (n =? _) eqn:E; simpl; [|lia].
        apply Z.eqb_eq in E. lia.
      * intros Hpos. specialize (Hn Hpos). split; [|exact Hn].
        destruct (n =? _) eqn:E; [|done]. apply Z.eqb_eq in E. lia.
    + apply Z.eqb_neq in Hmod. split; [done|]. split; [done|]. intros H. done.
  - intros Hover Hmod.
    destruct Hbuf as [Hbv (buffer & Hb & Hdata)].
    pose proof (slice_beyond data _ _ Hstart Hover) as Hlen. fold start in Hlen.
    split.
    + intros primitives attribute_names material stored Hstored.
      unfold load_primitive. simpl. rewrite Hstored. simpl. rewrite Hacc. simpl.
      unfold index_bytes. rewrite Hbv. simpl. rewrite Hb. simpl.
      rewrite Hdata. simpl. fold (window_start buffer_view accessor).
      fold (index_window accessor). fold start d. unfold np.frombuffer.
      rewrite Hlen. fold (available data start).
      replace (_ =? 0) with true by (symmetry; apply Z.eqb_eq; exact Hmod).
      simpl. fold n. reflexivity.
    + intros Hpos. unfold n. apply Z.div_lt_upper_bound; [lia|].
      unfold index_window in *. fold d in Hpos, Hover. unfold available. lia.
Qed.

Lemma window_beyond_buffer_is_cut_short_witness :
  (∃ array,
     load_attribute Example.bare ∅ ("POSITION", Some 1) = Ok {["POSITION" := array]}
     ∧ np.shape array = [6])
  ∧ load_primitive Example.bare [] (Primitive.mk [] (Some 3) None)
    = Ok [PrimitiveData.mk ∅
            (Some (np.mk np.uint16 [12] (Py.slice Example.bytes24 0 72))) None].
Proof.
  split.
  - destruct (window_beyond_buffer_is_cut_short Example.bare ∅ "POSITION" 1
                Example.too_long Example.view Example.bytes24) as [Hattr _].
    + reflexivity.
    + split; [reflexivity|]. eexists. split; reflexivity.
    + vm_compute. discriminate.
    + destruct Hattr as (_ & _ & array & Hload & _ & _ & Hshape).
      * vm_compute. reflexivity.
      * reflexivity.
      * exists array. split; [exact Hload|]. apply Hshape. vm_compute. reflexivity.
  - destruct (window_beyond_buffer_is_cut_short Example.bare ∅ "POSITION" 3
                Example.long_indices Example.view Example.bytes24) as [_ Hidx].
    + reflexivity.
    + split; [reflexivity|]. eexists. split; reflexivity.
    + vm_compute. discriminate.
    + destruct Hidx as [Hprim _].
      * vm_compute. reflexivity.
      * reflexivity.
      * apply (Hprim [] [] None ∅). reflexivity.
Defined.

(** C2 as stated fails: the window of [too_long] (36 bytes from byte 0) runs
    past the 24 bytes of the buffer, and the attribute is not left out: the
    six floats that are there are stored as a flat array, not as 3 x 3. *)
Lemma truncated_attribute_is_stored :
  accessor_buffer Example.bare Example.too_long Example.view Example.bytes24
  ∧ Py.len Example.bytes24
    < window_start Example.view Example.too_long + attribute_window Example.too_long
  ∧ load_attribute Example.bare ∅ ("POSITION", Some 1)
    = Ok {["POSITION" := np.mk np.float32 [6] Example.bytes24]}
  ∧ load_attribute Example.bare ∅ ("POSITION", Some 1) ≠ Ok ∅.
Proof.
  split; [split; [reflexivity | eexists; split; reflexivity]|].
  split; [vm_compute; reflexivity|].
  split; [vm_compute; reflexivity|].
  vm_compute. discriminate.
Qed.

(** The index list past the end is cut short as well ... *)
Example truncated_indices_are_stored :
  load_primitive Example.bare [] (Primitive.mk [] (Some 3) None)
  = Ok [PrimitiveData.mk ∅ (Some (np.mk np.uint16 [12] Example.bytes24)) None].
Proof. vm_compute. reflexivity. Qed.

(** ... and when its bytes are not whole elements the [continue] of the
    handler leaves the loop body: the primitive itself is not appended. *)
Example odd_indices_drop_the_primitive :
  load_primitive Example.bare [] (Primitive.mk [("POSITION", Some 0)]%string (Some 4) None)
  = Ok [].
Proof. vm_compute. reflexivity. Qed.

(** An attribute whose bytes are not whole elements is left out, and the
    rest of the primitive is kept. *)
Example misaligned_attribute_is_left_out :
  load_primitive Example.bare []
    (Primitive.mk [("NORMAL", Some 2); ("POSITION", Some 0)]%string None None)
  = Ok [PrimitiveData.mk {["POSITION" := np.mk np.float32 [2; 3] Example.bytes24]} None None].
Proof. vm_compute. reflexivity. Qed.

(** ** Method bodies *)

Lemma bind_Ok {A B} (m : M A) (f : A → M B) w w' a :
  m w = (w', Ok a) → (m ≫= f) w = f a w'.
Proof. intros Hm. unfold mbind, M_bind. by rewrite Hm. Qed.

Lemma bind_Raise {A B} (m : M A) (f : A → M B) w w' e :
  m w = (w', Raise e) → (m ≫= f) w = (w', Raise e).
Proof. intros Hm. unfold mbind, M_bind. by rewrite Hm. Qed.

Lemma for_each_app {A} (l1 l2 : list A) (body : A → M unit) w :
  for_each (l1 ++ l2) body w = (for_each l1 body ;; for_each l2 body) w.
Proof.
  revert w. induction l1 as [|x l1 IH]; intros w; simpl; [done|].
  unfold mbind, M_bind. destruct (body x w) as [w1 [[]|e]]; [|done].
  rewrite IH. reflexivity.
Qed.



Section TextureLoading.

Context `{Libraries}.





End TextureLoading.


(** ** Handles recorded by the upload *)

Lemma records_bind {A B} dt (m : M A) (k : A → M B) :
  records_at_most 0 m → (∀ a, records_at_most dt (k a)) →
  records_at_most dt (m ≫= k).
Proof.
  intros Hm Hk w. unfold mbind, M_bind. specialize (Hm w).
  destruct (m w) as [w1 [a|e]]; simpl in *.
  - specialize (Hk a w1). lia.
  - lia.
Qed.

Lemma records_try {A} dt (body : M A) (handler : exn → M A) :
  records_at_most dt body → (∀ e, records_at_most 0 (handler e)) →
  records_at_most dt (try_except body handler).
Proof.
  intros Hb Hh w. unfold try_except. specialize (Hb w).
  destruct (body w) as [w1 [a|e]]; simpl in *; [lia|].
  specialize (Hh e w1). lia.
Qed.

Lemma records_weaken {A} dt (m : M A) :
  records_at_most 0 m → records_at_most dt m.
Proof. intros Hm w. specialize (Hm w). lia. Qed.

Lemma records_ret {A} (a : A) : records_at_most 0 (mret a).
Proof. intros w. simpl. lia. Qed.

Lemma records_lift {A} (r : result A) : records_at_most 0 (lift r).
Proof. intros w. simpl. lia. Qed.

Lemma records_get_self : records_at_most 0 get_self.
Proof. intros w. simpl. lia. Qed.

Lemma records_append_texture_id texture_id :
  records_at_most 1 (append_texture_id texture_id).
Proof.
  intros w. unfold vao_count, texture_id_count. simpl.
  rewrite length_app. simpl. lia.
Qed.

Lemma returns_bind {A B} (m : M A) (k : A → M B) :
  returns_quietly m → (∀ a, returns_quietly (k a)) → returns_quietly (m ≫= k).
Proof.
  intros Hm Hk w. destruct (Hm w) as (w1 & a & E1 & Hv1 & Ht1).
  destruct (Hk a w1) as (w2 & b & E2 & Hv2 & Ht2).
  exists w2, b. rewrite (bind_Ok _ _ _ _ _ E1). split; [exact E2|]. lia.
Qed.

Lemma returns_ret {A} (a : A) : returns_quietly (mret a).
Proof. intros w. by exists w, a. Qed.

Lemma returns_append_vbo vbo : returns_quietly (append_vbo vbo).
Proof. intros w. eexists _, tt. split; [reflexivity|]. done. Qed.

Lemma keeps_bind {A B X} (field : Loader.t → X) (m : M A) (k : A → M B) :
  keeps field m → (∀ a, keeps field (k a)) → keeps field (m ≫= k).
Proof.
  intros Hm Hk w. unfold mbind, M_bind. specialize (Hm w).
  destruct (m w) as [w1 [a|e]]; simpl in *; [|done].
  by rewrite (Hk a w1).
Qed.

Lemma keeps_try {A X} (field : Loader.t → X) (body : M A) (handler : exn → M A) :
  keeps field body → (∀ e, keeps field (handler e)) →
  keeps field (try_except body handler).
Proof.
  intros Hb Hh w. unfold try_except. specialize (Hb w).
  destruct (body w) as [w1 [a|e]]; simpl in *; [done|].
  by rewrite (Hh e w1).
Qed.

Lemma keeps_for_each {A X} (field : Loader.t → X) (l : list A) (body : A → M unit) :
  (∀ x, keeps field (body x)) → keeps field (for_each l body).
Proof.
  intros Hbody. induction l as [|x l IH]; [done|].
  simpl. apply keeps_bind; [apply Hbody | intros _; exact IH].
Qed.

Lemma keeps_ret {A X} (field : Loader.t → X) (a : A) : keeps field (mret a).
Proof. done. Qed.

Lemma keeps_lift {A X} (field : Loader.t → X) (r : result A) : keeps field (lift r).
Proof. done. Qed.

Lemma keeps_get_self {X} (field : Loader.t → X) : keeps field get_self.
Proof. done. Qed.

Section Upload.

Context `{Libraries}.

Lemma records_gl_call c : records_at_most 0 (gl_call c).
Proof.
  intros w. unfold gl_call, vao_count, texture_id_count.
  destruct (gl_fault _); simpl; lia.
Qed.

Lemma records_glGenTextures : records_at_most 0 glGenTextures.
Proof.
  intros w. unfold glGenTextures.
  apply (records_bind 0 (gl_call _) (λ _, mret _)); [apply records_gl_call|].
  intros _. apply records_ret.
Qed.

Lemma records_upload_image img texture_id :
  records_at_most 1 (upload_image img texture_id).
Proof.
  unfold upload_image. apply records_try; [|intros _; apply records_ret].
  apply records_bind; [apply records_lift|]. intros img'.
  apply records_bind; [apply records_lift|]. intros img_data.
  do 6 (apply records_bind; [apply records_gl_call|]; intros _).
  apply records_append_texture_id.
Qed.

Lemma records_upload_texture primitive :
  records_at_most 1 (upload_texture primitive).
Proof.
  unfold upload_texture. apply records_bind; [apply records_get_self|]. intros s.
  destruct (PrimitiveData.material primitive) as [material|];
    [|apply records_weaken, records_ret].
  destruct (material <? _); [|apply records_weaken, records_ret].
  apply records_bind; [apply records_lift|]. intros texture_data.
  destruct (TextureData.image texture_data) as [img|];
    [|apply records_weaken, records_ret].
  apply records_bind; [apply records_glGenTextures|]. intros texture_id.
  apply records_bind; [apply records_gl_call|]. intros _.
  apply records_upload_image.
Qed.

(** From here on every OpenGL call returns. *)
Hypothesis no_fault : ∀ n, gl_fault n = false.

Lemma gl_call_returns c w :
  gl_call c w = (mkWorld (self w) (GL.run c (gl w)), Ok tt).
Proof. unfold gl_call. by rewrite no_fault. Qed.

Lemma returns_gl_call c : returns_quietly (gl_call c).
Proof. intros w. eexists _, tt. split; [apply gl_call_returns|]. done. Qed.

Lemma returns_glGenBuffers : returns_quietly glGenBuffers.
Proof.
  intros w. unfold glGenBuffers.
  apply (returns_bind (gl_call _) (λ _, mret _)); [apply returns_gl_call|].
  intros _. apply returns_ret.
Qed.

Lemma returns_glGenVertexArrays : returns_quietly glGenVertexArrays.
Proof.
  intros w. unfold glGenVertexArrays.
  apply (returns_bind (gl_call _) (λ _, mret _)); [apply returns_gl_call|].
  intros _. apply returns_ret.
Qed.

Lemma returns_upload_attribute primitive name index size :
  returns_quietly (upload_attribute primitive name index size).
Proof.
  unfold upload_attribute.
  destruct (PrimitiveData.attributes primitive !! name); [|apply returns_ret].
  apply returns_bind; [apply returns_glGenBuffers|]. intros vbo.
  do 4 (apply returns_bind; [apply returns_gl_call|]; intros _).
  apply returns_append_vbo.
Qed.

Lemma returns_upload_indices primitive :
  returns_quietly (upload_indices primitive).
Proof.
  unfold upload_indices.
  destruct (PrimitiveData.indices primitive); [|apply returns_ret].
  apply returns_bind; [apply returns_glGenBuffers|]. intros vbo.
  do 2 (apply returns_bind; [apply returns_gl_call|]; intros _).
  apply returns_append_vbo.
Qed.

(** One primitive: one more vertex-array handle, at most one more texture
    handle, and no exception leaves the body. *)
Lemma upload_primitive_counts primitive w :
  ∃ w', upload_primitive primitive w = (w', Ok tt)
        ∧ vao_count w' = S (vao_count w)
        ∧ (texture_id_count w ≤ texture_id_count w' ≤ S (texture_id_count w))%nat.
Proof.
  unfold upload_primitive, try_except.
  destruct (returns_glGenVertexArrays w) as (w1 & vao & E1 & Hv1 & Ht1).
  rewrite (bind_Ok _ _ _ _ _ E1).
  destruct (returns_gl_call (GL.BindVertexArray vao) w1) as (w2 & [] & E2 & Hv2 & Ht2).
  rewrite (bind_Ok _ _ _ _ _ E2).
  destruct (returns_upload_attribute primitive "POSITION" 0 3 w2)
    as (w3 & [] & E3 & Hv3 & Ht3).
  rewrite (bind_Ok _ _ _ _ _ E3).
  destruct (returns_upload_attribute primitive "NORMAL" 1 3 w3)
    as (w4 & [] & E4 & Hv4 & Ht4).
  rewrite (bind_Ok _ _ _ _ _ E4).
  destruct (returns_upload_attribute primitive "TEXCOORD_0" 2 2 w4)
    as (w5 & [] & E5 & Hv5 & Ht5).
  rewrite (bind_Ok _ _ _ _ _ E5).
  destruct (returns_upload_indices primitive w5) as (w6 & [] & E6 & Hv6 & Ht6).
  rewrite (bind_Ok _ _ _ _ _ E6).
  rewrite (bind_Ok (append_vao vao) _ w6 _ tt) by reflexivity.
  set (w7 := mkWorld _ (gl w6)).
  assert (Hv7 : vao_count w7 = S (vao_count w6)).
  { unfold vao_count, w7. simpl. rewrite length_app. simpl. lia. }
  assert (Ht7 : texture_id_count w7 = texture_id_count w6) by reflexivity.
  assert (Hrec : records_at_most 1 (upload_texture primitive ;; gl_call GL.GetError)).
  { intros w0. unfold mbind, M_bind.
    pose proof (records_upload_texture primitive w0) as Hu.
    destruct (upload_texture primitive w0) as [w0' [[]|e]]; simpl in *; [|lia].
    pose proof (records_gl_call GL.GetError w0'). lia. }
  specialize (Hrec w7).
  destruct ((upload_texture primitive ;; gl_call GL.GetError) w7) as [w8 [[]|e]];
    simpl in *; exists w8; (split; [reflexivity|]); lia.
Qed.

Lemma upload_primitives_counts primitives w :
  ∃ w', for_each primitives upload_primitive w = (w', Ok tt)
        ∧ vao_count w' = (vao_count w + length primitives)%nat
        ∧ (texture_id_count w ≤ texture_id_count w'
           ≤ texture_id_count w + length primitives)%nat.
Proof.
  revert w. induction primitives as [|p primitives IH]; intros w; simpl.
  - exists w. split; [reflexivity|]. lia.
  - destruct (upload_primitive_counts p w) as (w1 & E1 & Hv1 & Ht1).
    rewrite (bind_Ok _ _ _ _ _ E1).
    destruct (IH w1) as (w2 & E2 & Hv2 & Ht2).
    exists w2. split; [exact E2|]. lia.
Qed.

Lemma upload_meshes_counts meshes w :
  ∃ w', for_each meshes
          (λ mesh, for_each (MeshData.primitives mesh) upload_primitive) w
        = (w', Ok tt)
        ∧ vao_count w' = (vao_count w + primitive_count meshes)%nat
        ∧ (texture_id_count w ≤ texture_id_count w'
           ≤ texture_id_count w + primitive_count meshes)%nat.
Proof.
  revert w. induction meshes as [|mesh meshes IH]; intros w; simpl.
  - exists w. split; [reflexivity|]. unfold primitive_count. simpl. lia.
  - destruct (upload_primitives_counts (MeshData.primitives mesh) w)
      as (w1 & E1 & Hv1 & Ht1).
    rewrite (bind_Ok _ _ _ _ _ E1).
    destruct (IH w1) as (w2 & E2 & Hv2 & Ht2).
    exists w2. split; [exact E2|]. unfold primitive_count in *. simpl. lia.
Qed.

End Upload.

Section UploadKeeps.

Context `{Libraries}.

Lemma keeps_gl_call {X} (field : Loader.t → X) c : keeps field (gl_call c).
Proof. intros w. unfold gl_call. by destruct (gl_fault _). Qed.

Lemma keeps_glGenVertexArrays {X} (field : Loader.t → X) : keeps field glGenVertexArrays.
Proof.
  intros w. unfold glGenVertexArrays.
  apply (keeps_bind field (gl_call _) (λ _, mret _)); [apply keeps_gl_call | done].
Qed.

Lemma keeps_glGenBuffers {X} (field : Loader.t → X) : keeps field glGenBuffers.
Proof.
  intros w. unfold glGenBuffers.
  apply (keeps_bind field (gl_call _) (λ _, mret _)); [apply keeps_gl_call | done].
Qed.

Lemma keeps_glGenTextures {X} (field : Loader.t → X) : keeps field glGenTextures.
Proof.
  intros w. unfold glGenTextures.
  apply (keeps_bind field (gl_call _) (λ _, mret _)); [apply keeps_gl_call | done].
Qed.

(** The upload reads the assembled meshes and the textures, and changes
    neither. *)
Lemma keeps_upload_primitive {X} (field : Loader.t → X) primitive :
  (∀ v, keeps field (append_vao v)) →
  (∀ v, keeps field (append_vbo v)) →
  (∀ v, keeps field (append_texture_id v)) →
  keeps field (upload_primitive primitive).
Proof.
  intros Hvao Hvbo Htid.
  assert (Hattr : ∀ name index size,
            keeps field (upload_attribute primitive name index size)).
  { intros. unfold upload_attribute. case_match; [|apply keeps_ret].
    apply keeps_bind; [apply keeps_glGenBuffers|]. intros vbo.
    do 4 (apply keeps_bind; [apply keeps_gl_call|]; intros _). apply Hvbo. }
  unfold upload_primitive. apply keeps_try; [|intros _; apply keeps_ret].
  apply keeps_bind; [apply keeps_glGenVertexArrays|]. intros vao.
  apply keeps_bind; [apply keeps_gl_call|]. intros _.
  do 3 (apply keeps_bind; [apply Hattr|]; intros _).
  apply keeps_bind.
  { unfold upload_indices. case_match; [|apply keeps_ret].
    apply keeps_bind; [apply keeps_glGenBuffers|]. intros vbo.
    do 2 (apply keeps_bind; [apply keeps_gl_call|]; intros _). apply Hvbo. }
  intros _. apply keeps_bind; [apply Hvao|]. intros _.
  apply keeps_bind; [|intros _; apply keeps_gl_call].
  unfold upload_texture. apply keeps_bind; [apply keeps_get_self|]. intros s.
  repeat case_match; try apply keeps_ret.
  apply keeps_bind; [apply keeps_lift|]. intros texture_data.
  case_match; [|apply keeps_ret].
  apply keeps_bind; [apply keeps_glGenTextures|]. intros texture_id.
  apply keeps_bind; [apply keeps_gl_call|]. intros _.
  unfold upload_image. apply keeps_try; [|intros _; apply keeps_ret].
  do 2 (apply keeps_bind; [apply keeps_lift|]; intros ?).
  do 6 (apply keeps_bind; [apply keeps_gl_call|]; intros _).
  apply Htid.
Qed.

Lemma keeps_setup_opengl_buffers {X} (field : Loader.t → X) :
  (∀ v, keeps field (append_vao v)) →
  (∀ v, keeps field (append_vbo v)) →
  (∀ v, keeps field (append_texture_id v)) →
  keeps field _setup_opengl_buffers.
Proof.
  intros Hvao Hvbo Htid. unfold _setup_opengl_buffers.
  apply keeps_try; [|intros _; apply keeps_ret].
  apply keeps_bind; [apply keeps_get_self|]. intros s.
  apply keeps_for_each. intros mesh. apply keeps_for_each. intros primitive.
  by apply keeps_upload_primitive.
Qed.

(** The upload as a whole: it returns, keeps the meshes, and records one
    vertex-array handle per primitive and at most one texture handle. *)
Lemma setup_opengl_buffers_counts w :
  (∀ n, gl_fault n = false) →
  ∃ w', _setup_opengl_buffers w = (w', Ok tt)
        ∧ Loader.meshes (self w') = Loader.meshes (self w)
        ∧ vao_count w' = (vao_count w + primitive_count (Loader.meshes (self w)))%nat
        ∧ (texture_id_count w ≤ texture_id_count w'
           ≤ texture_id_count w + primitive_count (Loader.meshes (self w)))%nat.
Proof.
  intros no_fault.
  pose proof (keeps_setup_opengl_buffers Loader.meshes
                (λ _ _, eq_refl) (λ _ _, eq_refl) (λ _ _, eq_refl) w) as Hmeshes.
  unfold _setup_opengl_buffers, try_except in *.
  rewrite (bind_Ok get_self _ w w (self w)) in * by reflexivity.
  destruct (upload_meshes_counts no_fault (Loader.meshes (self w)) w)
    as (w' & E & Hv & Ht).
  rewrite E in *. simpl in Hmeshes. exists w'. done.
Qed.

(** X20: when every OpenGL call of the upload returns, the upload itself
    returns, and starting from the empty handle lists that [load] leaves
    before it, the loader holds one vertex-array handle per assembled
    primitive, the sum over the assembled meshes of their primitives, and
    no more texture handles than that; the meshes are the ones it was
    given. The assembled primitives can be fewer than the container's. *)
Theorem upload_records_one_vertex_array_per_primitive w :
  (∀ n, gl_fault n = false) →
  Loader.vaos (self w) = [] →
  Loader.texture_ids (self w) = [] →
  ∃ w', _setup_opengl_buffers w = (w', Ok tt)
        ∧ Loader.meshes (self w') = Loader.meshes (self w)
        ∧ length (Loader.vaos (self w')) = primitive_count (Loader.meshes (self w'))
        ∧ (length (Loader.texture_ids (self w'))
           ≤ primitive_count (Loader.meshes (self w')))%nat.
Proof.
  intros no_fault Hvaos Htids.
  destruct (setup_opengl_buffers_counts w no_fault) as (w' & E & Hmeshes & Hv & Ht).
  exists w'. split; [exact E|]. split; [exact Hmeshes|]. rewrite Hmeshes.
  unfold vao_count, texture_id_count in *. rewrite Hvaos, Htids in *. simpl in *.
  lia.
Qed.

End UploadKeeps.

(** ** [cleanup] *)

Lemma filter_not_in_twice (texs : list Z) (m : gmap Z (Z * Z * list byte)) :
  filter (λ kv, kv.1 ∉ texs) (filter (λ kv, kv.1 ∉ texs) m)
  = filter (λ kv, kv.1 ∉ texs) m.
Proof.
  apply map_filter_id. intros k v Hkv.
  by apply map_lookup_filter_Some in Hkv as [_ Hk].
Qed.

Lemma difference_twice (X L : gset Z) : X ∖ L ∖ L = X ∖ L.
Proof. apply set_eq. intros x. rewrite !elem_of_difference. tauto. Qed.

Lemma deleted_not_alive (X : gset Z) (L : list Z) (h : Z) :
  h ∈ L → h ∉ X ∖ list_to_set L.
Proof. intros Hh. rewrite elem_of_difference, elem_of_list_to_set. tauto. Qed.

Section Cleanup.

Context `{Libraries}.

Hypothesis no_fault : ∀ n, gl_fault n = false.

Lemma cleanup_runs w :
  cleanup w = (mkWorld (self w) (run_all (cleanup_calls (self w)) (gl w)), Ok tt).
Proof.
  unfold cleanup, cleanup_calls, run_all.
  rewrite (bind_Ok get_self _ w w (self w)) by reflexivity.
  destruct w as [s g]. simpl.
  unfold mbind, M_bind, mret, M_ret, gl_call. simpl.
  repeat (case_bool_decide; simpl; rewrite ?no_fault; simpl); reflexivity.
Qed.

(** C4, as the code has it: two calls of [cleanup] in succession both
    return when the OpenGL calls do. [cleanup] leaves the loader as it was,
    handle lists included, so the second call makes the same delete calls
    on the same handles once more; none of the handles listed is alive
    after the first call, and the objects of the context after the second
    call are those after the first: the second call releases nothing. *)
Theorem second_cleanup_releases_nothing w :
  ∃ w1 w2,
    cleanup w = (w1, Ok tt) ∧ cleanup w1 = (w2, Ok tt)
    ∧ self w1 = self w ∧ self w2 = self w
    ∧ GL.trace (gl w1) = GL.trace (gl w) ++ cleanup_calls (self w)
    ∧ GL.trace (gl w2) = GL.trace (gl w1) ++ cleanup_calls (self w)
    ∧ GL.vertex_arrays (gl w2) = GL.vertex_arrays (gl w1)
    ∧ GL.buffers (gl w2) = GL.buffers (gl w1)
    ∧ GL.textures (gl w2) = GL.textures (gl w1)
    ∧ GL.images (gl w2) = GL.images (gl w1)
    ∧ (∀ h, h ∈ Loader.vaos (self w1) → h ∉ GL.vertex_arrays (gl w1))
    ∧ (∀ h, h ∈ Loader.vbos (self w1) → h ∉ GL.buffers (gl w1))
    ∧ (∀ h, h ∈ Loader.texture_ids (self w1) → h ∉ GL.textures (gl w1)).
Proof.
  eexists _, _. split; [apply cleanup_runs|]. split; [apply cleanup_runs|].
  simpl. split; [done|]. split; [done|].
  destruct w as [s g]. simpl. unfold cleanup_calls, run_all.
  repeat case_bool_decide; simpl;
    rewrite <- ?(assoc_L (++)); simpl;
    repeat split; try done; try apply difference_twice;
    try apply filter_not_in_twice; try (by rewrite (right_id_L [] (++)));
    intros h Hh; try (by apply deleted_not_alive);
    match goal with
    | Hnil : ?l = [] |- _ => rewrite Hnil in Hh; by apply elem_of_nil in Hh
    end.
Qed.

End Cleanup.

(** ** [load] *)

Section Load.

Context `{Libraries}.

(** [_clear_previous_data] forgets the handles without a single OpenGL
    call: the context, and every object alive in it, is as before. *)
Lemma clear_previous_data_keeps_context w :
  _clear_previous_data w
  = (mkWorld (Loader.mk (Loader.base_path (self w)) (Loader.gltf (self w)) [] [] [] [] [] [])
       (gl w), Ok tt).
Proof. reflexivity. Qed.

(** C10: when parsing the container raises, [load] raises the same
    exception and the loader is exactly as before the call: the meshes,
    textures, materials, vaos, vbos and texture_ids it held are all still
    there, and so is the container parsed earlier. *)
Theorem failed_parse_leaves_loader_unchanged file_name w e :
  GLTF2_load (os_path_join (Loader.base_path (self w)) "models" file_name) = Raise e →
  load file_name w = (w, Raise e).
Proof.
  intros Hparse. unfold load.
  rewrite (bind_Ok get_self _ w w (self w)) by reflexivity.
  unfold try_except.
  rewrite (bind_Raise (lift _) _ w w e) by (unfold lift; by rewrite Hparse).
  reflexivity.
Qed.

Lemma keeps_load_texture {X} (field : Loader.t → X) gltf texture :
  (∀ t, keeps field (append_texture t)) → keeps field (load_texture gltf texture).
Proof.
  intros Happend. unfold load_texture.
  apply keeps_bind; [apply keeps_get_self|]. intros s.
  repeat case_match; try apply keeps_ret.
  apply keeps_bind; [apply keeps_lift|]. intros image.
  repeat case_match; try apply keeps_ret; try apply Happend.
  apply keeps_bind; [apply keeps_lift|]. intros image_data.
  case_match; [apply Happend | apply keeps_ret].
Qed.

Lemma keeps_get_gltf {X} (field : Loader.t → X) : keeps field get_gltf.
Proof. intros w. unfold get_gltf. by case_match. Qed.

Lemma keeps_load_textures {X} (field : Loader.t → X) :
  (∀ t, keeps field (append_texture t)) → keeps field _load_textures.
Proof.
  intros Happend. unfold _load_textures.
  apply keeps_bind; [apply keeps_get_gltf|]. intros gltf.
  apply keeps_for_each. intros texture. by apply keeps_load_texture.
Qed.

Lemma keeps_load_materials {X} (field : Loader.t → X) :
  (∀ m, keeps field (append_material m)) → keeps field _load_materials.
Proof.
  intros Happend. unfold _load_materials.
  apply keeps_bind; [apply keeps_get_gltf|]. intros gltf.
  apply keeps_for_each. intros material. unfold load_material.
  apply keeps_bind; [apply keeps_get_self|]. intros s. apply Happend.
Qed.

Lemma keeps_load_meshes {X} (field : Loader.t → X) :
  (∀ m, keeps field (append_mesh m)) → keeps field _load_meshes.
Proof.
  intros Happend. unfold _load_meshes.
  apply keeps_bind; [apply keeps_get_gltf|]. intros gltf.
  apply keeps_for_each. intros mesh. unfold load_mesh.
  apply keeps_bind; [apply keeps_get_self|]. intros s.
  apply keeps_bind; [apply keeps_lift|]. intros primitives. apply Happend.
Qed.

(** After a [load] that returns, with every OpenGL call returning: one
    vertex-array handle per assembled primitive, at most as many texture
    handles. *)
Lemma load_records_one_vertex_array_per_primitive file_name w w' :
  (∀ n, gl_fault n = false) →
  load file_name w = (w', Ok tt) →
  length (Loader.vaos (self w')) = primitive_count (Loader.meshes (self w'))
  ∧ (length (Loader.texture_ids (self w'))
     ≤ primitive_count (Loader.meshes (self w')))%nat.
Proof.
  intros no_fault. unfold load.
  rewrite (bind_Ok get_self _ w w (self w)) by reflexivity.
  unfold try_except, mbind at 1, M_bind, lift.
  destruct (GLTF2_load _) as [gltf|e]; [|done].
  unfold mbind at 1, M_bind. simpl.
  unfold mbind at 1, M_bind. simpl.
  set (w0 := mkWorld _ (gl w)).
  pose proof (keeps_load_textures Loader.vaos (λ _ _, eq_refl) w0) as Hv1.
  pose proof (keeps_load_textures Loader.texture_ids (λ _ _, eq_refl) w0) as Ht1.
  unfold mbind at 1, M_bind.
  destruct (_load_textures w0) as [w1 [[]|e]]; [|done]. simpl in Hv1, Ht1.
  pose proof (keeps_load_materials Loader.vaos (λ _ _, eq_refl) w1) as Hv2.
  pose proof (keeps_load_materials Loader.texture_ids (λ _ _, eq_refl) w1) as Ht2.
  unfold mbind at 1, M_bind.
  destruct (_load_materials w1) as [w2 [[]|e]]; [|done]. simpl in Hv2, Ht2.
  pose proof (keeps_load_meshes Loader.vaos (λ _ _, eq_refl) w2) as Hv3.
  pose proof (keeps_load_meshes Loader.texture_ids (λ _ _, eq_refl) w2) as Ht3.
  unfold mbind at 1, M_bind.
  destruct (_load_meshes w2) as [w3 [[]|e]]; [|done]. simpl in Hv3, Ht3.
  destruct (setup_opengl_buffers_counts w3 no_fault) as (w4 & E & Hm & Hvaos & Htids).
  rewrite E. intros [= <-]. rewrite Hm.
  unfold vao_count, texture_id_count in *.
  rewrite Hv3, Hv2, Hv1 in Hvaos. rewrite Ht3, Ht2, Ht1 in Htids.
  simpl in *. lia.
Qed.

End Load.

(** ** [render] *)

Section Render.

Context `{Libraries}.

(** A primitive is assembled whether or not it has a POSITION attribute:
    once its attributes are decoded, a primitive without index list is
    appended. *)
Lemma load_primitive_appends gltf primitives attribute_names material attributes :
  load_attributes gltf attribute_names ∅ = Ok attributes →
  load_primitive gltf primitives (Primitive.mk attribute_names None material)
  = Ok (primitives ++ [PrimitiveData.mk attributes None material]).
Proof.
  intros Hattrs. unfold load_primitive. simpl. rewrite Hattrs. reflexivity.
Qed.

(** The non-indexed draw takes its size from POSITION and from nothing
    else: without it the lookup raises. *)
Lemma render_draw_needs_position primitive w :
  PrimitiveData.indices primitive = None →
  PrimitiveData.attributes primitive !! "POSITION" = None →
  render_draw primitive w = (w, Raise (KeyError "POSITION")).
Proof. intros Hidx Hpos. unfold render_draw. by rewrite Hidx, Hpos. Qed.

End Render.

(** ** Runs on the example files *)



(** textures.glb: the missing file and the undecodable embedded image are
    skipped, the two textures around them are loaded. *)
Example textures_around_a_failure_are_loaded :
  Scene.outcome (load (H:=Scene.libs) "textures.glb") Scene.start = Ok tt
  ∧ map TextureData.index
      (Loader.textures (self (Scene.after (load (H:=Scene.libs) "textures.glb") Scene.start)))
    = [Some 0; Some 2].
Proof. vm_compute. split; reflexivity. Qed.

(** Resolving the bytes of an embedded image happens before the [try]: an
    image without uri and without a bufferView index raises out of the loop. *)
Example unresolved_image_bytes_are_not_caught :
  Scene.outcome
    (load_texture (H:=Scene.libs) (Example.container [Scene.dangling] [] [] [])
       (Texture.mk (Some 0) None)) Scene.start
  = Raise TypeError.
Proof. vm_compute. reflexivity. Qed.

Lemma upload_records_one_vertex_array_per_primitive_witness :
  ∃ w', _setup_opengl_buffers (H:=Scene.libs) Run.assembled = (w', Ok tt)
        ∧ length (Loader.vaos (self w')) = 3%nat.
Proof.
  destruct (upload_records_one_vertex_array_per_primitive (H:=Scene.libs) Run.assembled)
    as (w' & E & Hmeshes & Hvaos & _).
  - intros n. reflexivity.
  - vm_compute. reflexivity.
  - vm_compute. reflexivity.
  - exists w'. split; [exact E|]. rewrite Hvaos, Hmeshes. vm_compute. reflexivity.
Defined.

(** C9 fails on dropped.glb: the container has one mesh of two primitives
    and every OpenGL call returns, so every upload succeeds and [load]
    returns; but the index list of the second primitive has an odd number
    of bytes left, the handler's [continue] drops the whole primitive, and
    the loader holds one vertex-array handle where the sum of P over the
    container's meshes is two. *)
Theorem dropped_primitive_gets_no_vertex_array :
  let w := Scene.after (load (H:=Dropped.libs) "dropped.glb") Scene.start in
  (∀ n, gl_fault (Libraries:=Dropped.libs) n = false)
  ∧ Scene.outcome (load (H:=Dropped.libs) "dropped.glb") Scene.start = Ok tt
  ∧ container_primitive_count Dropped.container = 2%nat
  ∧ primitive_count (Loader.meshes (self w)) = 1%nat
  ∧ length (Loader.vaos (self w)) = 1%nat
  ∧ size (GL.vertex_arrays (gl w)) = 1%nat.
Proof.
  split; [intros n; reflexivity|]. vm_compute. repeat split; reflexivity.
Qed.

Lemma failed_parse_leaves_loader_unchanged_witness :
  load (H:=Scene.libs) "missing.glb" Run.planet = (Run.planet, Raise OSError).
Proof.
  apply (failed_parse_leaves_loader_unchanged (H:=Scene.libs) "missing.glb" Run.planet).
  vm_compute. reflexivity.
Defined.

Lemma second_cleanup_releases_nothing_witness :
  ∃ w1 w2,
    cleanup (H:=Scene.libs) Run.planet = (w1, Ok tt)
    ∧ cleanup (H:=Scene.libs) w1 = (w2, Ok tt)
    ∧ GL.vertex_arrays (gl w2) = GL.vertex_arrays (gl w1).
Proof.
  destruct (second_cleanup_releases_nothing (H:=Scene.libs) (λ n, eq_refl) Run.planet)
    as (w1 & w2 & E1 & E2 & _ & _ & _ & _ & Hvaos & _).
  exists w1, w2. split; [exact E1|]. split; [exact E2 | exact Hvaos].
Defined.

(** C4 as stated fails: after [cleanup] the handle lists of the loader of
    planet.glb still hold every handle, and a second [cleanup] makes the
    three delete calls again, on the same handles. *)
Lemma cleanup_does_not_clear_the_handle_lists :
  let w1 := Scene.after (cleanup (H:=Scene.libs)) Run.planet in
  let w2 := Scene.after (cleanup (H:=Scene.libs)) w1 in
  Scene.outcome (cleanup (H:=Scene.libs)) Run.planet = Ok tt
  ∧ Loader.vaos (self w1) = [1; 4; 8]
  ∧ Loader.vbos (self w1) = [2; 3; 5; 6; 9; 10; 11]
  ∧ Loader.texture_ids (self w1) = [7; 12]
  ∧ calls_since w1 w2
    = [GL.DeleteVertexArrays 3 [1; 4; 8];
       GL.DeleteBuffers 7 [2; 3; 5; 6; 9; 10; 11];
       GL.DeleteTextures [7; 12]].
Proof. vm_compute. repeat split; reflexivity. Qed.

(** C3 at planet.glb loaded twice by one loader: both calls return; the
    second makes no delete call, the three vertex arrays, seven buffers and
    two textures of the first load are all still alive after it, and the
    context holds twice the objects of a single load, while the loader
    records only the handles of the second load. *)
Theorem reload_does_not_release_previous_handles :
  let w1 := Run.planet in
  let w2 := Scene.after (load (H:=Scene.libs) "planet.glb") w1 in
  Scene.outcome (load (H:=Scene.libs) "planet.glb") Scene.start = Ok tt
  ∧ Scene.outcome (load (H:=Scene.libs) "planet.glb") w1 = Ok tt
  ∧ Loader.vaos (self w1) = [1; 4; 8]
  ∧ Loader.vbos (self w1) = [2; 3; 5; 6; 9; 10; 11]
  ∧ Loader.texture_ids (self w1) = [7; 12]
  ∧ forallb (λ c, negb (is_delete c)) (calls_since w1 w2) = true
  ∧ forallb (λ h, bool_decide (h ∈ GL.vertex_arrays (gl w2))) (Loader.vaos (self w1)) = true
  ∧ forallb (λ h, bool_decide (h ∈ GL.buffers (gl w2))) (Loader.vbos (self w1)) = true
  ∧ forallb (λ h, bool_decide (h ∈ GL.textures (gl w2))) (Loader.texture_ids (self w1)) = true
  ∧ Loader.vaos (self w2) = [13; 16; 20]
  ∧ GL.live (gl w1) = 12%nat
  ∧ GL.live (gl w2) = 24%nat.
Proof. vm_compute. repeat split; reflexivity. Qed.

(** C5 at planet.glb: the second primitive of the mesh has material 1, and
    the upload made texture 7 for it, from the image of texture 1 (the moon).
    The first primitive has no texture, so handle 7 sits at place 0 of
    texture_ids, not at the primitive's place 1. [render] binds
    texture_ids[1], which is texture 12, the one made for the third
    primitive from the image of texture 0 (the earth). *)
Theorem render_binds_the_texture_of_another_primitive :
  let w := Run.planet in
  ∃ mesh second,
    Loader.meshes (self w) !! 0%nat = Some mesh
    ∧ MeshData.primitives mesh !! 1%nat = Some second
    ∧ PrimitiveData.material second = Some 1
    ∧ (TextureData.image <$> Loader.textures (self w) !! 1%nat) = Some (Some Scene.moon_png)
    ∧ Loader.texture_ids (self w) = [7; 12]
    ∧ GL.images (gl w) !! 7 = Some (1, 1, PIL.pixels Scene.moon_png)
    ∧ GL.images (gl w) !! 12 = Some (1, 1, PIL.pixels Scene.earth_png)
    ∧ bound_textures
        (calls_since w
           (Scene.after (render_primitive (H:=Scene.libs) 0 0 mesh (1, second)) w))
      = [12].
Proof. vm_compute. eexists _, _. repeat split; reflexivity. Qed.

(** C8 at normals.glb: the primitive with a NORMAL attribute only is
    assembled and gets its vertex array, and [render] raises KeyError on
    it instead of drawing. *)
Theorem render_without_position_raises :
  let w := Run.normals in
  Scene.outcome (load (H:=Scene.libs) "normals.glb") Scene.start = Ok tt
  ∧ Loader.meshes (self w)
    = [MeshData.mk "mesh_0"
         [PrimitiveData.mk {["NORMAL" := np.mk np.float32 [2; 3] Example.bytes24]}
            None None]]
  ∧ Loader.vaos (self w) = [1]
  ∧ Scene.outcome (render (H:=Scene.libs) 0) w = Raise (KeyError "POSITION").
Proof. vm_compute. repeat split; reflexivity. Qed.

(** * Further properties of the loader *)

(** ** The mesh assembler *)

Lemma frombuffer_whole (b : list byte) (d : np.dtype) (a : np.ndarray) :
  np.frombuffer b d = Ok a →
  a = np.mk d [Py.len b / np.itemsize d] b ∧ whole_elements a.
Proof.
  unfold np.frombuffer. destruct (_ =? 0) eqn:Hmod; [|done].
  intros [= <-]. split; [done|]. unfold whole_elements, np.size. simpl.
  apply Z.eqb_eq in Hmod. pose proof (itemsize_pos d).
  rewrite Z.mul_1_r. rewrite Z.mul_comm. apply Z.div_exact; lia.
Qed.

Lemma attribute_array_whole accessor buffer_data a :
  attribute_array accessor buffer_data = Ok a → whole_elements a.
Proof.
  unfold attribute_array.
  destruct (np.frombuffer _ _) as [flat|e] eqn:Hflat; simpl; [|done].
  apply frombuffer_whole in Hflat as [-> Hwhole].
  destruct (np.len _ =? _) eqn:Hlen; [|by intros [= <-]].
  unfold np.reshape. destruct (foldr Z.mul 1 _ =? _) eqn:Hsize; [|done].
  intros [= <-]. apply Z.eqb_eq in Hsize.
  unfold whole_elements, np.size in *. simpl in *. lia.
Qed.

Lemma load_attribute_outcome gltf attributes name accessor_idx attributes' :
  load_attribute gltf attributes (name, accessor_idx) = Ok attributes' →
  attributes' = attributes
  ∨ ∃ i a, accessor_idx = Some i ∧ attributes' = <[name := a]> attributes
           ∧ whole_elements a.
Proof.
  unfold load_attribute. simpl. destruct accessor_idx as [i|]; [|intros [= <-]; by left].
  destruct (Py.getitem _ _) as [accessor|e]; simpl; [|done].
  destruct (attribute_bytes _ _) as [bytes|e]; simpl; [|done].
  destruct (attribute_array accessor bytes) as [a|e] eqn:Ha; simpl.
  - intros [= <-]. right. exists i, a. split; [done|]. split; [done|].
    by eapply attribute_array_whole.
  - destruct e; try done. intros [= <-]. by left.
Qed.

Lemma load_attributes_outcome gltf attribute_names attributes attributes' :
  load_attributes gltf attribute_names attributes = Ok attributes' →
  ∀ name a, attributes' !! name = Some a →
    attributes !! name = Some a
    ∨ ((∃ i, (name, Some i) ∈ attribute_names) ∧ whole_elements a).
Proof.
  revert attributes. induction attribute_names as [|[n idx] rest IH];
    intros attributes; simpl.
  - intros [= <-] name a Ha. by left.
  - destruct (load_attribute gltf attributes (n, idx)) as [mid|e] eqn:Hstep;
      simpl; [|done].
    intros Hrest name a Ha.
    destruct (IH _ Hrest name a Ha) as [Hmid | [[i Hi] Hwhole]].
    + apply load_attribute_outcome in Hstep as [-> | (i & b & -> & -> & Hwhole)];
        [by left|].
      destruct (decide (n = name)) as [->|Hne].
      * rewrite lookup_insert_eq in Hmid. injection Hmid as ->.
        right. split; [|done]. exists i. apply elem_of_cons. by left.
      * rewrite lookup_insert_ne in Hmid by done. by left.
    + right. split; [|done]. exists i. apply elem_of_cons. by right.
Qed.

(** X1: The attributes of an assembled primitive are named after fields of the
    source primitive whose value is an accessor index: a field that is not
    an int never yields an attribute, and no other name appears. *)
Theorem assembled_attributes_come_from_integer_fields gltf attribute_names attributes :
  load_attributes gltf attribute_names ∅ = Ok attributes →
  ∀ name, is_Some (attributes !! name) → ∃ i, (name, Some i) ∈ attribute_names.
Proof.
  intros Hload name [a Ha].
  destruct (load_attributes_outcome _ _ _ _ Hload name a Ha) as [Hempty | [Hin _]];
    [by rewrite lookup_empty in Hempty | exact Hin].
Qed.

Lemma load_primitive_outcome gltf primitives primitive primitives' :
  load_primitive gltf primitives primitive = Ok primitives' →
  (primitives' = primitives ∧ is_Some (Primitive.indices primitive))
  ∨ ∃ kept, primitives' = primitives ++ [kept]
            ∧ PrimitiveData.material kept = Primitive.material primitive
            ∧ primitive_arrays_whole kept.
Proof.
  unfold load_primitive.
  destruct (load_attributes gltf _ ∅) as [attributes|e] eqn:Hattrs; simpl; [|done].
  assert (Hwhole : ∀ name a, attributes !! name = Some a → whole_elements a).
  { intros name a Ha.
    destruct (load_attributes_outcome _ _ _ _ Hattrs name a Ha) as [Hempty | [_ Hw]];
      [by rewrite lookup_empty in Hempty | exact Hw]. }
  destruct (Primitive.indices primitive) as [accessor_idx|].
  - destruct (Py.getitem _ _) as [accessor|e]; simpl; [|done].
    destruct (index_bytes _ _) as [bytes|e]; simpl; [|done].
    destruct (np.frombuffer _ _) as [indices|e] eqn:Hidx; simpl.
    + intros [= <-]. right. eexists. split; [done|]. split; [done|].
      split; [exact Hwhole|]. simpl. intros a [= <-].
      by apply frombuffer_whole in Hidx as [_ Hw].
    + destruct e; try done. intros [= <-]. left. by split.
  - intros [= <-]. right. eexists. split; [done|]. split; [done|].
    split; [exact Hwhole | done].
Qed.

Lemma load_primitives_outcome gltf todo primitives primitives' :
  load_primitives gltf todo primitives = Ok primitives' →
  ∃ kept, primitives' = primitives ++ kept
          ∧ Forall primitive_arrays_whole kept
          ∧ map PrimitiveData.material kept `sublist_of` map Primitive.material todo
          ∧ (Forall (λ p, Primitive.indices p = None) todo →
             map PrimitiveData.material kept = map Primitive.material todo).
Proof.
  revert primitives. induction todo as [|p todo IH]; intros primitives; simpl.
  - intros [= <-]. exists []. rewrite app_nil_r. repeat split; try done.
  - destruct (load_primitive gltf primitives p) as [mid|e] eqn:Hstep; simpl; [|done].
    intros Hrest. destruct (IH _ Hrest) as (kept & -> & Hwhole & Hsub & Hall).
    apply load_primitive_outcome in Hstep
      as [[-> Hidx] | (k & -> & Hmat & Hk)].
    + exists kept. split; [done|]. split; [done|]. split; [by apply sublist_cons|].
      intros Hnone. apply Forall_cons in Hnone as [Hp _].
      rewrite Hp in Hidx. by destruct Hidx.
    + exists (k :: kept). rewrite <- app_assoc. split; [done|].
      split; [by apply Forall_cons|]. simpl. rewrite Hmat.
      split; [by apply sublist_skip|].
      intros Hnone. apply Forall_cons in Hnone as [_ Hnone]. by rewrite (Hall Hnone).
Qed.

(** X2: Every array the assembler keeps, attribute or index list, cut short or
    not, views whole elements: its bytes are its element count times the
    size of one element. *)
Theorem assembled_arrays_view_whole_elements gltf todo primitives :
  load_primitives gltf todo [] = Ok primitives →
  Forall primitive_arrays_whole primitives.
Proof.
  intros Hload. by destruct (load_primitives_outcome _ _ _ _ Hload) as (kept & -> & Hw & _).
Qed.


Lemma index_bytes_resolved gltf accessor buffer_view data :
  accessor_buffer gltf accessor buffer_view data →
  index_bytes gltf accessor =
    Ok (Py.slice data (window_start buffer_view accessor)
          (window_start buffer_view accessor + index_window accessor)).
Proof.
  intros [Hbv (buffer & Hbuf & Hdata)].
  unfold index_bytes. rewrite Hbv. simpl. rewrite Hbuf. simpl.
  rewrite Hdata. reflexivity.
Qed.

(** X4: The index list of a primitive whose accessor fits inside the buffer is
    assembled as a flat array of exactly [count] elements over the bytes of
    its window, and the primitive is appended with it. *)
Theorem valid_accessor_index_list gltf primitives attribute_names material stored
    accessor_idx accessor buffer_view data :
  load_attributes gltf attribute_names ∅ = Ok stored →
  Py.getitem (GLTF2.accessors gltf) accessor_idx = Ok accessor →
  accessor_buffer gltf accessor buffer_view data →
  0 ≤ window_start buffer_view accessor →
  0 ≤ Accessor.count accessor →
  window_start buffer_view accessor + index_window accessor ≤ Py.len data →
  load_primitive gltf primitives (Primitive.mk attribute_names (Some accessor_idx) material)
  = Ok (primitives ++
        [PrimitiveData.mk stored
           (Some (np.mk (_get_numpy_dtype (Accessor.componentType accessor))
                    [Accessor.count accessor]
                    (Py.slice data (window_start buffer_view accessor)
                       (window_start buffer_view accessor + index_window accessor))))
           material]).
Proof.
  intros Hstored Hacc Hbuf Hstart Hcount Hfit.
  set (d := _get_numpy_dtype (Accessor.componentType accessor)).
  pose proof (itemsize_pos d) as Hisz.
  assert (Hwin : 0 ≤ index_window accessor) by (unfold index_window; fold d; nia).
  pose proof (slice_inside data _ _ Hstart Hwin Hfit) as Hlen.
  unfold load_primitive. simpl. rewrite Hstored. simpl. rewrite Hacc. simpl.
  rewrite (index_bytes_resolved _ _ _ _ Hbuf). simpl. fold d.
  rewrite (frombuffer_multiple _ d (Accessor.count accessor)); [done|].
  rewrite Hlen. reflexivity.
Qed.

Lemma valid_accessor_index_list_witness :
  load_primitive Example.bare [] (Primitive.mk [] (Some 6) (Some 0))
  = Ok [PrimitiveData.mk ∅
          (Some (np.mk np.uint16 [6] (Py.slice Example.bytes24 0 12))) (Some 0)].
Proof.
  apply (valid_accessor_index_list Example.bare [] [] (Some 0) ∅ 6
           Example.indices6 Example.view Example.bytes24).
  - reflexivity.
  - reflexivity.
  - split; [reflexivity|]. eexists. split; reflexivity.
  - vm_compute. discriminate.
  - vm_compute. discriminate.
  - vm_compute. discriminate.
Defined.

Lemma assembled_attributes_come_from_integer_fields_witness :
  ∃ i, ("POSITION"%string, Some i)
       ∈ [("NORMAL"%string, None); ("POSITION"%string, Some 0)].
Proof.
  apply (assembled_attributes_come_from_integer_fields Example.bare
           [("NORMAL"%string, None); ("POSITION"%string, Some 0)]
           {["POSITION"%string := np.mk np.float32 [2; 3] Example.bytes24]}).
  - vm_compute. reflexivity.
  - eexists. vm_compute. reflexivity.
Defined.

Lemma assembled_arrays_view_whole_elements_witness :
  Forall primitive_arrays_whole
    [PrimitiveData.mk {["POSITION"%string := np.mk np.float32 [6] Example.bytes24]}
       (Some (np.mk np.uint16 [12] Example.bytes24)) None].
Proof.
  apply (assembled_arrays_view_whole_elements Example.bare
           [Primitive.mk [("POSITION"%string, Some 1)] (Some 3) None]).
  vm_compute. reflexivity.
Defined.


Lemma load_attributes_app gltf names1 names2 attributes :
  load_attributes gltf (names1 ++ names2) attributes
  = load_attributes gltf names1 attributes ≫= load_attributes gltf names2.
Proof.
  revert attributes. induction names1 as [|a names1 IH]; intros attributes; simpl; [done|].
  destruct (load_attribute gltf attributes a); simpl; [apply IH | done].
Qed.

Lemma load_primitives_app gltf todo1 todo2 primitives :
  load_primitives gltf (todo1 ++ todo2) primitives
  = load_primitives gltf todo1 primitives ≫= load_primitives gltf todo2.
Proof.
  revert primitives. induction todo1 as [|p todo1 IH]; intros primitives; simpl; [done|].
  destruct (load_primitive gltf primitives p); simpl; [apply IH | done].
Qed.

(** X5: An accessor index that does not resolve is not a skipped attribute: the
    exception leaves the attribute loop, the primitive loop and the body of
    the mesh loop, so the mesh is not recorded and the meshes after it are
    not reached. *)
Theorem unresolved_accessor_aborts_the_mesh gltf mesh_name done before name
    accessor_idx after indices material rest kept stored e w :
  load_primitives gltf done [] = Ok kept →
  load_attributes gltf before ∅ = Ok stored →
  Py.getitem (GLTF2.accessors gltf) accessor_idx = Raise e →
  load_mesh gltf
    (Mesh.mk mesh_name
       (done ++ Primitive.mk (before ++ (name, Some accessor_idx) :: after) indices material
             :: rest)) w
  = (w, Raise e).
Proof.
  intros Hdone Hbefore Hacc. unfold load_mesh.
  rewrite (bind_Ok get_self _ w w (self w)) by reflexivity.
  apply bind_Raise. unfold lift. f_equal. simpl.
  rewrite load_primitives_app, Hdone. simpl.
  unfold load_primitive. simpl.
  rewrite load_attributes_app, Hbefore. simpl.
  unfold load_attribute at 1. simpl. rewrite Hacc. reflexivity.
Qed.

Lemma unresolved_accessor_aborts_the_mesh_witness :
  load_mesh Example.bare
    (Mesh.mk None [Primitive.mk [("NORMAL", Some 0); ("POSITION", Some 99)]%string None None])
    Scene.start
  = (Scene.start, Raise IndexError).
Proof.
  apply (unresolved_accessor_aborts_the_mesh Example.bare None []
           [("NORMAL"%string, Some 0)] "POSITION" 99 [] None None [] []
           {["NORMAL"%string := np.mk np.float32 [2; 3] Example.bytes24]}
           IndexError Scene.start).
  - reflexivity.
  - vm_compute. reflexivity.
  - vm_compute. reflexivity.
Defined.

Lemma load_mesh_outcome gltf mesh w w' :
  load_mesh gltf mesh w = (w', Ok tt) →
  ∃ md, mesh_record_of md mesh
        ∧ w' = mkWorld
                 (Loader.mk (Loader.base_path (self w)) (Loader.gltf (self w))
                    (Loader.meshes (self w) ++ [md]) (Loader.textures (self w))
                    (Loader.materials (self w)) (Loader.vaos (self w))
                    (Loader.vbos (self w)) (Loader.texture_ids (self w)))
                 (gl w).
Proof.
  unfold load_mesh. rewrite (bind_Ok get_self _ w w (self w)) by reflexivity.
  unfold mbind, M_bind, lift.
  destruct (load_primitives gltf _ []) as [primitives|e] eqn:Hprims; [|done].
  unfold append_mesh, set_self. intros [= <-].
  eexists. split; [|reflexivity].
  destruct (load_primitives_outcome _ _ _ _ Hprims) as (kept & -> & _ & Hsub & _).
  simpl. split; [|split; [exact Hsub|]].
  - apply sublist_length in Hsub. by rewrite !length_map in Hsub.
  - intros n Hn Hne. unfold Py.or_str. rewrite Hn.
    destruct (String.eqb n "") eqn:E; [|done]. by apply String.eqb_eq in E.
Qed.

Lemma load_meshes_loop gltf meshes w w' :
  for_each meshes (load_mesh gltf) w = (w', Ok tt) →
  ∃ new, Loader.meshes (self w') = Loader.meshes (self w) ++ new
         ∧ Forall2 mesh_record_of new meshes.
Proof.
  revert w. induction meshes as [|mesh meshes IH]; intros w; simpl.
  - intros [= <-]. exists []. by rewrite app_nil_r.
  - unfold mbind, M_bind.
    destruct (load_mesh gltf mesh w) as [w1 [[]|e]] eqn:Hstep; [|done].
    intros Hrest. apply load_mesh_outcome in Hstep as (md & Hmd & ->).
    destruct (IH _ Hrest) as (new & Hnew & Hall). simpl in Hnew.
    exists (md :: new). rewrite Hnew, <- app_assoc. split; [done|].
    by apply Forall2_cons.
Qed.

(** X6: When [_load_meshes] returns, the loader has one more mesh record per
    mesh of the container, in the container's order, also for a mesh that
    lost primitives: each record has the mesh's name (when it has one), at
    most as many primitives as the mesh, and their materials in order. *)
Theorem load_meshes_records_every_mesh gltf w w' :
  Loader.gltf (self w) = Some gltf →
  _load_meshes w = (w', Ok tt) →
  ∃ new, Loader.meshes (self w') = Loader.meshes (self w) ++ new
         ∧ Forall2 mesh_record_of new (GLTF2.meshes gltf).
Proof.
  intros Hgltf. unfold _load_meshes.
  rewrite (bind_Ok get_gltf _ w w gltf) by (unfold get_gltf; by rewrite Hgltf).
  apply load_meshes_loop.
Qed.

Lemma load_meshes_records_every_mesh_witness :
  ∃ new, Loader.meshes (self (Scene.after _load_meshes Stage.parsed)) = [] ++ new
         ∧ Forall2 mesh_record_of new (GLTF2.meshes Scene.planet).
Proof.
  apply (load_meshes_records_every_mesh Scene.planet Stage.parsed
           (Scene.after _load_meshes Stage.parsed)).
  - reflexivity.
  - vm_compute. reflexivity.
Defined.

(** ** The material loader *)

Lemma load_material_runs m w :
  load_material m w
  = (mkWorld
       (Loader.mk (Loader.base_path (self w)) (Loader.gltf (self w))
          (Loader.meshes (self w)) (Loader.textures (self w))
          (Loader.materials (self w) ++
           [MaterialData.mk
              (Py.or_str (Material.name m)
                 (Py.fmt "material_" (length (Loader.materials (self w)))))
              (from_option PbrMetallicRoughness.baseColorFactor
                 [1.0; 1.0; 1.0; 1.0]%float (Material.pbrMetallicRoughness m))
              (from_option PbrMetallicRoughness.metallicFactor 0.5%float
                 (Material.pbrMetallicRoughness m))
              (from_option PbrMetallicRoughness.roughnessFactor 0.5%float
                 (Material.pbrMetallicRoughness m))])
          (Loader.vaos (self w)) (Loader.vbos (self w))
          (Loader.texture_ids (self w)))
       (gl w), Ok tt).
Proof.
  unfold load_material, mbind, M_bind, get_self, append_material, set_self.
  destruct (Material.pbrMetallicRoughness m); reflexivity.
Qed.

Lemma load_materials_loop materials w :
  ∃ w' new,
    for_each materials load_material w = (w', Ok tt)
    ∧ Loader.materials (self w') = Loader.materials (self w) ++ new
    ∧ Forall2 material_record_of new materials
    ∧ gl w' = gl w.
Proof.
  revert w. induction materials as [|m materials IH]; intros w; simpl.
  - exists w, []. by rewrite app_nil_r.
  - rewrite (bind_Ok _ _ _ _ _ (load_material_runs m w)).
    destruct (IH (load_material m w).1) as (w' & new & Hrun & Hnew & Hall & Hgl).
    rewrite load_material_runs in Hrun, Hnew, Hgl. simpl in *.
    exists w'. eexists (_ :: new).
    split; [exact Hrun|]. split; [|split; [|exact Hgl]].
    + rewrite Hnew, <- app_assoc. reflexivity.
    + apply Forall2_cons. split; [|exact Hall].
      repeat split; try reflexivity.
      intros n Hn Hne. simpl. unfold Py.or_str. rewrite Hn.
      destruct (String.eqb n "") eqn:E; [|done]. by apply String.eqb_eq in E.
Qed.

(** X7: Once a container is set, [_load_materials] always returns, with one more
    material record per material of the container, in order: a record has
    the factors of its material, or white, 0.5 and 0.5 when the material has
    no pbrMetallicRoughness. The records are index-aligned with the
    container's materials when the list was empty before. *)
Theorem load_materials_records_every_material gltf w :
  Loader.gltf (self w) = Some gltf →
  ∃ w' new,
    _load_materials w = (w', Ok tt)
    ∧ Loader.materials (self w') = Loader.materials (self w) ++ new
    ∧ Forall2 material_record_of new (GLTF2.materials gltf)
    ∧ gl w' = gl w.
Proof.
  intros Hgltf. unfold _load_materials.
  rewrite (bind_Ok get_gltf _ w w gltf) by (unfold get_gltf; by rewrite Hgltf).
  destruct (load_materials_loop (GLTF2.materials gltf) w)
    as (w' & new & Hrun & Hnew & Hall & Hgl).
  by exists w', new.
Qed.

Lemma load_materials_records_every_material_witness :
  ∃ w' new,
    _load_materials Stage.parsed = (w', Ok tt)
    ∧ Loader.materials (self w') = [] ++ new
    ∧ Forall2 material_record_of new (GLTF2.materials Scene.planet)
    ∧ gl w' = gl Stage.parsed.
Proof.
  apply (load_materials_records_every_material Scene.planet Stage.parsed).
  reflexivity.
Defined.

(** ** The texture loader *)

Lemma getitem_elem_of {A} (l : list A) (i : Z) (x : A) :
  Py.getitem l i = Ok x → x ∈ l.
Proof.
  unfold Py.getitem. destruct (_ && _); [|done].
  destruct (l !! _) eqn:E; [|done]. intros [= <-].
  by eapply list_elem_of_lookup_2.
Qed.

Section TextureRecords.

Context `{Libraries}.

Lemma load_texture_outcome gltf texture w :
  (∀ image, image ∈ GLTF2.images gltf → Image.bufferView image ≠ NoAttr) →
  ∃ new,
    self (load_texture gltf texture w).1
    = Loader.mk (Loader.base_path (self w)) (Loader.gltf (self w))
        (Loader.meshes (self w)) (Loader.textures (self w) ++ new)
        (Loader.materials (self w)) (Loader.vaos (self w)) (Loader.vbos (self w))
        (Loader.texture_ids (self w))
    ∧ gl (load_texture gltf texture w).1 = gl w
    ∧ Forall texture_record_complete new
    ∧ map TextureData.index new `sublist_of` [Texture.source texture].
Proof.
  intros Hattr.
  assert (Hnone : ∃ new,
            self w
            = Loader.mk (Loader.base_path (self w)) (Loader.gltf (self w))
                (Loader.meshes (self w)) (Loader.textures (self w) ++ new)
                (Loader.materials (self w)) (Loader.vaos (self w)) (Loader.vbos (self w))
                (Loader.texture_ids (self w))
            ∧ gl w = gl w
            ∧ Forall texture_record_complete new
            ∧ map TextureData.index new `sublist_of` [Texture.source texture]).
  { exists []. rewrite app_nil_r. destruct w as [[] ?]. repeat split; try done.
    apply sublist_nil_l. }
  assert (Hone : ∀ name img e,
            ∃ new,
              Loader.mk (Loader.base_path (self w)) (Loader.gltf (self w))
                (Loader.meshes (self w))
                (Loader.textures (self w) ++
                 [TextureData.update
                    (TextureData.mk (Texture.source texture) name None None None None)
                    img e])
                (Loader.materials (self w)) (Loader.vaos (self w)) (Loader.vbos (self w))
                (Loader.texture_ids (self w))
              = Loader.mk (Loader.base_path (self w)) (Loader.gltf (self w))
                  (Loader.meshes (self w)) (Loader.textures (self w) ++ new)
                  (Loader.materials (self w)) (Loader.vaos (self w)) (Loader.vbos (self w))
                  (Loader.texture_ids (self w))
              ∧ gl w = gl w
              ∧ Forall texture_record_complete new
              ∧ map TextureData.index new `sublist_of` [Texture.source texture]).
  { intros name img e. eexists [_]. split; [reflexivity|]. split; [done|].
    split; [|done]. apply Forall_singleton. exists img. simpl. by repeat split. }
  unfold load_texture, mbind, M_bind, get_self, lift, append_texture, set_self,
    mret, M_ret.
  destruct (Texture.source texture) as [source|]; [|exact Hnone].
  destruct (source <? _); [|exact Hnone].
  destruct (Py.getitem _ source) as [image|e] eqn:Himage; [|exact Hnone].
  apply getitem_elem_of, Hattr in Himage.
  destruct (image_uri image) as [uri|].
  - destruct (external_image _ uri); [apply Hone | exact Hnone].
  - destruct (Image.bufferView image) as [|bufferView]; [done|].
    destruct (embedded_image_data gltf bufferView); [|exact Hnone].
    destruct (embedded_image image _); [apply Hone | exact Hnone].
Qed.

Lemma load_textures_loop gltf textures w :
  (∀ image, image ∈ GLTF2.images gltf → Image.bufferView image ≠ NoAttr) →
  ∃ new,
    Loader.textures (self (for_each textures (load_texture gltf) w).1)
    = Loader.textures (self w) ++ new
    ∧ gl (for_each textures (load_texture gltf) w).1 = gl w
    ∧ Forall texture_record_complete new
    ∧ map TextureData.index new `sublist_of` map Texture.source textures.
Proof.
  intros Hattr. revert w. induction textures as [|t textures IH]; intros w; simpl.
  - exists []. rewrite app_nil_r. repeat split; try done.
  - destruct (load_texture_outcome gltf t w Hattr) as (new1 & Hself & Hgl & Hall1 & Hsub1).
    unfold mbind, M_bind.
    destruct (load_texture gltf t w) as [w1 [[]|e]]; simpl in *.
    + destruct (IH w1) as (new2 & Hnew2 & Hgl2 & Hall2 & Hsub2).
      exists (new1 ++ new2). rewrite Hnew2, Hself, Hgl2, Hgl. simpl.
      rewrite <- app_assoc. split; [done|]. split; [done|].
      split; [by apply Forall_app|]. rewrite map_app.
      change (Texture.source t :: map Texture.source textures)
        with ([Texture.source t] ++ map Texture.source textures).
      by apply sublist_app.
    + exists new1. rewrite Hself. simpl. split; [done|]. split; [done|].
      split; [done|].
      change (Texture.source t :: map Texture.source textures)
        with ([Texture.source t] ++ map Texture.source textures).
      by apply sublist_inserts_r.
Qed.

(** X8: Whether [_load_textures] returns or raises, what it has added to the
    loader's textures are complete records (image, width, height, embedded
    flag) of textures of the container, in the container's order with the
    skipped ones missing, provided every image object has a bufferView field
    (as the parser's image objects do); and it has made no OpenGL call. *)
Theorem recorded_textures_are_decoded gltf w :
  (∀ image, image ∈ GLTF2.images gltf → Image.bufferView image ≠ NoAttr) →
  Loader.gltf (self w) = Some gltf →
  ∃ new,
    Loader.textures (self (_load_textures w).1) = Loader.textures (self w) ++ new
    ∧ Forall texture_record_complete new
    ∧ map TextureData.index new `sublist_of` map Texture.source (GLTF2.textures gltf)
    ∧ gl (_load_textures w).1 = gl w.
Proof.
  intros Hattr Hgltf. unfold _load_textures.
  rewrite (bind_Ok get_gltf _ w w gltf) by (unfold get_gltf; by rewrite Hgltf).
  destruct (load_textures_loop gltf (GLTF2.textures gltf) w Hattr)
    as (new & Hnew & Hgl & Hall & Hsub).
  by exists new.
Qed.

(** X9: A texture without source, or whose source is not below the number of
    images, is not recorded at all, not even without an image: the loop goes
    on as if it were not in the list, and the textures after it are recorded
    one place lower. *)
Theorem texture_without_image_is_not_recorded gltf texture before after w :
  Texture.source texture = None
  ∨ (∃ source, Texture.source texture = Some source
               ∧ Py.len (GLTF2.images gltf) ≤ source) →
  load_texture gltf texture w = (w, Ok tt)
  ∧ for_each (before ++ texture :: after) (load_texture gltf) w
    = for_each (before ++ after) (load_texture gltf) w.
Proof.
  intros Hsource.
  assert (Hskip : ∀ w, load_texture gltf texture w = (w, Ok tt)).
  { intros w0. unfold load_texture.
    rewrite (bind_Ok get_self _ w0 w0 (self w0)) by reflexivity.
    destruct Hsource as [-> | (source & -> & Hge)]; [done|].
    apply Z.ltb_ge in Hge. by rewrite Hge. }
  split; [apply Hskip|].
  rewrite !for_each_app. unfold mbind at 1 2, M_bind.
  destruct (for_each before (load_texture gltf) w) as [w1 [[]|e]]; simpl; [|done].
  unfold mbind at 1, M_bind. by rewrite Hskip.
Qed.

End TextureRecords.

Lemma recorded_textures_are_decoded_witness :
  ∃ new,
    Loader.textures
      (self (_load_textures (H:=Scene.libs)
               (Scene.after (set_gltf Scene.textures) Scene.start)).1)
    = [] ++ new
    ∧ Forall texture_record_complete new
    ∧ map TextureData.index new `sublist_of` [Some 0; Some 1; Some 3; Some 2].
Proof.
  destruct (recorded_textures_are_decoded (H:=Scene.libs) Scene.textures
              (Scene.after (set_gltf Scene.textures) Scene.start))
    as (new & Hnew & Hall & Hsub & _).
  - intros image Hin. vm_compute in Hin.
    repeat (apply elem_of_cons in Hin; destruct Hin as [->|Hin]; [done|]).
    by apply elem_of_nil in Hin.
  - reflexivity.
  - exists new. split; [exact Hnew|]. split; [exact Hall | exact Hsub].
Defined.

Lemma texture_without_image_is_not_recorded_witness :
  load_texture (H:=Scene.libs) Scene.planet (Texture.mk (Some 2) None) Scene.start
  = (Scene.start, Ok tt).
Proof.
  apply (texture_without_image_is_not_recorded (H:=Scene.libs) Scene.planet
           (Texture.mk (Some 2) None) [] [] Scene.start).
  right. exists 2. split; [reflexivity|]. vm_compute. discriminate.
Defined.

(** ** The upload when OpenGL calls fail *)

Lemma quiet_of_keeps {A} (m : M A) :
  keeps Loader.vaos m → keeps Loader.texture_ids m → records_at_most 0 m.
Proof.
  intros Hv Ht w. unfold vao_count, texture_id_count. rewrite (Hv w), (Ht w). lia.
Qed.

Lemma primitive_bind_quiet {A B} (m : M A) (k : A → M B) :
  records_at_most 0 m → (∀ a, records_a_primitive_at_most (k a)) →
  records_a_primitive_at_most (m ≫= k).
Proof.
  intros Hm Hk w. unfold mbind, M_bind. specialize (Hm w).
  destruct (m w) as [w1 [a|e]]; simpl in *.
  - destruct (Hk a w1) as (dv & dt & Hv & Ht & Hle). exists dv, dt. lia.
  - exists 0%nat, 0%nat. lia.
Qed.

Lemma try_pass_returns (body : M unit) w :
  try_except body (λ _, mret tt) w = ((body w).1, Ok tt).
Proof. unfold try_except. by destruct (body w) as [w' [[]|e]]. Qed.

Section UploadUnderFaults.

Context `{Libraries}.

Lemma keeps_upload_attribute {X} (field : Loader.t → X) primitive name index size :
  (∀ v, keeps field (append_vbo v)) →
  keeps field (upload_attribute primitive name index size).
Proof.
  intros Hvbo. unfold upload_attribute. case_match; [|apply keeps_ret].
  apply keeps_bind; [apply keeps_glGenBuffers|]. intros vbo.
  do 4 (apply keeps_bind; [apply keeps_gl_call|]; intros _). apply Hvbo.
Qed.

Lemma keeps_upload_indices {X} (field : Loader.t → X) primitive :
  (∀ v, keeps field (append_vbo v)) → keeps field (upload_indices primitive).
Proof.
  intros Hvbo. unfold upload_indices. case_match; [|apply keeps_ret].
  apply keeps_bind; [apply keeps_glGenBuffers|]. intros vbo.
  do 2 (apply keeps_bind; [apply keeps_gl_call|]; intros _). apply Hvbo.
Qed.

Lemma keeps_upload_texture {X} (field : Loader.t → X) primitive :
  (∀ v, keeps field (append_texture_id v)) → keeps field (upload_texture primitive).
Proof.
  intros Htid. unfold upload_texture.
  apply keeps_bind; [apply keeps_get_self|]. intros s.
  repeat case_match; try apply keeps_ret.
  apply keeps_bind; [apply keeps_lift|]. intros texture_data.
  case_match; [|apply keeps_ret].
  apply keeps_bind; [apply keeps_glGenTextures|]. intros texture_id.
  apply keeps_bind; [apply keeps_gl_call|]. intros _.
  unfold upload_image. apply keeps_try; [|intros _; apply keeps_ret].
  do 2 (apply keeps_bind; [apply keeps_lift|]; intros ?).
  do 6 (apply keeps_bind; [apply keeps_gl_call|]; intros _).
  apply Htid.
Qed.

Lemma upload_primitive_under_faults primitive w :
  ∃ w' dv dt,
    upload_primitive primitive w = (w', Ok tt)
    ∧ vao_count w' = (vao_count w + dv)%nat
    ∧ texture_id_count w' = (texture_id_count w + dt)%nat
    ∧ (dt ≤ dv ≤ 1)%nat.
Proof.
  unfold upload_primitive. rewrite try_pass_returns.
  match goal with |- context [(?body w).1] => set (b := body) end.
  assert (Hb : records_a_primitive_at_most b).
  { unfold b.
    apply primitive_bind_quiet;
      [apply quiet_of_keeps; apply keeps_glGenVertexArrays|]. intros vao.
    apply primitive_bind_quiet; [apply records_gl_call|]. intros _.
    do 3 (apply primitive_bind_quiet;
            [apply quiet_of_keeps; by apply keeps_upload_attribute|]; intros _).
    apply primitive_bind_quiet;
      [apply quiet_of_keeps; by apply keeps_upload_indices|]. intros _.
    intros w0. set (w1 := (append_vao vao w0).1).
    change ((append_vao vao ;; upload_texture primitive ;; gl_call GL.GetError) w0)
      with ((upload_texture primitive ;; gl_call GL.GetError) w1).
    assert (Hv1 : vao_count w1 = S (vao_count w0)).
    { unfold vao_count, w1. simpl. rewrite length_app. simpl. lia. }
    assert (Ht1 : texture_id_count w1 = texture_id_count w0) by reflexivity.
    assert (Htail : records_at_most 1 (upload_texture primitive ;; gl_call GL.GetError)).
    { intros w2. unfold mbind, M_bind.
      pose proof (records_upload_texture primitive w2) as Hu.
      destruct (upload_texture primitive w2) as [w3 [[]|e]]; simpl in *; [|lia].
      pose proof (records_gl_call GL.GetError w3). lia. }
    specialize (Htail w1). destruct Htail as [Hv2 Ht2].
    exists 1%nat, (texture_id_count
                     ((upload_texture primitive ;; gl_call GL.GetError) w1).1
                   - texture_id_count w1)%nat.
    lia. }
  destruct (Hb w) as (dv & dt & Hv & Ht & Hle). by exists (b w).1, dv, dt.
Qed.

Lemma upload_primitives_under_faults primitives w :
  ∃ w' dv dt,
    for_each primitives upload_primitive w = (w', Ok tt)
    ∧ vao_count w' = (vao_count w + dv)%nat
    ∧ texture_id_count w' = (texture_id_count w + dt)%nat
    ∧ (dt ≤ dv ≤ length primitives)%nat.
Proof.
  revert w. induction primitives as [|p primitives IH]; intros w; simpl.
  - exists w, 0%nat, 0%nat. split; [reflexivity|]. lia.
  - destruct (upload_primitive_under_faults p w) as (w1 & dv1 & dt1 & E1 & Hv1 & Ht1 & H1).
    rewrite (bind_Ok _ _ _ _ _ E1).
    destruct (IH w1) as (w2 & dv2 & dt2 & E2 & Hv2 & Ht2 & H2).
    exists w2, (dv1 + dv2)%nat, (dt1 + dt2)%nat. split; [exact E2|]. lia.
Qed.

Lemma upload_meshes_under_faults meshes w :
  ∃ w' dv dt,
    for_each meshes (λ mesh, for_each (MeshData.primitives mesh) upload_primitive) w
    = (w', Ok tt)
    ∧ vao_count w' = (vao_count w + dv)%nat
    ∧ texture_id_count w' = (texture_id_count w + dt)%nat
    ∧ (dt ≤ dv ≤ primitive_count meshes)%nat.
Proof.
  revert w. induction meshes as [|mesh meshes IH]; intros w; simpl.
  - exists w, 0%nat, 0%nat. split; [reflexivity|]. unfold primitive_count. simpl. lia.
  - destruct (upload_primitives_under_faults (MeshData.primitives mesh) w)
      as (w1 & dv1 & dt1 & E1 & Hv1 & Ht1 & H1).
    rewrite (bind_Ok _ _ _ _ _ E1).
    destruct (IH w1) as (w2 & dv2 & dt2 & E2 & Hv2 & Ht2 & H2).
    exists w2, (dv1 + dv2)%nat, (dt1 + dt2)%nat. split; [exact E2|].
    unfold primitive_count in *. simpl. lia.
Qed.

(** X10: Whichever OpenGL calls fail, [_setup_opengl_buffers] returns: it records
    at most one vertex-array handle per primitive, and a texture handle only
    for a primitive whose vertex-array handle it has recorded, so never more
    texture handles than vertex-array handles. *)
Theorem upload_survives_failing_calls w :
  ∃ w' dv dt,
    _setup_opengl_buffers w = (w', Ok tt)
    ∧ length (Loader.vaos (self w')) = (length (Loader.vaos (self w)) + dv)%nat
    ∧ length (Loader.texture_ids (self w'))
      = (length (Loader.texture_ids (self w)) + dt)%nat
    ∧ (dt ≤ dv ≤ primitive_count (Loader.meshes (self w)))%nat.
Proof.
  unfold _setup_opengl_buffers. rewrite try_pass_returns.
  rewrite (bind_Ok get_self _ w w (self w)) by reflexivity.
  destruct (upload_meshes_under_faults (Loader.meshes (self w)) w)
    as (w' & dv & dt & E & Hv & Ht & Hle).
  rewrite E. simpl. by exists w', dv, dt.
Qed.

End UploadUnderFaults.

(** ** Buffers recorded by the upload *)

Lemma buffers_bind {A B} n k (m : M A) (f : A → M B) :
  returns_with_buffers n m → (∀ a, returns_with_buffers k (f a)) →
  returns_with_buffers (n + k) (m ≫= f).
Proof.
  intros Hm Hf w. destruct (Hm w) as (w1 & a & E1 & H1).
  destruct (Hf a w1) as (w2 & b & E2 & H2).
  exists w2, b. rewrite (bind_Ok _ _ _ _ _ E1). split; [exact E2|]. lia.
Qed.

Lemma buffers_ret {A} (a : A) : returns_with_buffers 0 (mret a).
Proof. intros w. exists w, a. split; [reflexivity|]. lia. Qed.

Lemma buffers_append_vbo vbo : returns_with_buffers 1 (append_vbo vbo).
Proof.
  intros w. eexists _, tt. split; [reflexivity|].
  unfold vbo_count. simpl. by rewrite length_app.
Qed.

Lemma buffers_append_vao vao : returns_with_buffers 0 (append_vao vao).
Proof. intros w. eexists _, tt. split; [reflexivity|]. unfold vbo_count. simpl. lia. Qed.

Section UploadBuffers.

Context `{Libraries}.

Hypothesis no_fault : ∀ n, gl_fault n = false.

Lemma buffers_gl_call c : returns_with_buffers 0 (gl_call c).
Proof.
  intros w. eexists _, tt. split; [by apply gl_call_returns|].
  unfold vbo_count. simpl. lia.
Qed.

Lemma buffers_glGenBuffers : returns_with_buffers 0 glGenBuffers.
Proof.
  intros w. unfold glGenBuffers.
  apply (buffers_bind 0 0 (gl_call _) (λ _, mret _)); [apply buffers_gl_call|].
  intros _. apply buffers_ret.
Qed.

Lemma buffers_glGenVertexArrays : returns_with_buffers 0 glGenVertexArrays.
Proof.
  intros w. unfold glGenVertexArrays.
  apply (buffers_bind 0 0 (gl_call _) (λ _, mret _)); [apply buffers_gl_call|].
  intros _. apply buffers_ret.
Qed.

Lemma buffers_upload_attribute primitive name index size :
  returns_with_buffers (has_attribute primitive name)
    (upload_attribute primitive name index size).
Proof.
  unfold upload_attribute, has_attribute.
  destruct (PrimitiveData.attributes primitive !! name); [|apply buffers_ret].
  apply (buffers_bind 0 1); [apply buffers_glGenBuffers|]. intros vbo.
  do 4 (apply (buffers_bind 0 1); [apply buffers_gl_call|]; intros _).
  apply buffers_append_vbo.
Qed.

Lemma buffers_upload_indices primitive :
  returns_with_buffers
    (match PrimitiveData.indices primitive with Some _ => 1 | None => 0 end)
    (upload_indices primitive).
Proof.
  unfold upload_indices.
  destruct (PrimitiveData.indices primitive); [|apply buffers_ret].
  apply (buffers_bind 0 1); [apply buffers_glGenBuffers|]. intros vbo.
  do 2 (apply (buffers_bind 0 1); [apply buffers_gl_call|]; intros _).
  apply buffers_append_vbo.
Qed.

Lemma upload_primitive_buffers primitive w :
  ∃ w', upload_primitive primitive w = (w', Ok tt)
        ∧ vbo_count w' = (vbo_count w + buffers_of primitive)%nat.
Proof.
  unfold upload_primitive. rewrite try_pass_returns. eexists. split; [reflexivity|].
  destruct (buffers_glGenVertexArrays w) as (w1 & vao & E1 & H1).
  rewrite (bind_Ok _ _ _ _ _ E1).
  destruct (buffers_gl_call (GL.BindVertexArray vao) w1) as (w2 & [] & E2 & H2).
  rewrite (bind_Ok _ _ _ _ _ E2).
  destruct (buffers_upload_attribute primitive "POSITION" 0 3 w2) as (w3 & [] & E3 & H3).
  rewrite (bind_Ok _ _ _ _ _ E3).
  destruct (buffers_upload_attribute primitive "NORMAL" 1 3 w3) as (w4 & [] & E4 & H4).
  rewrite (bind_Ok _ _ _ _ _ E4).
  destruct (buffers_upload_attribute primitive "TEXCOORD_0" 2 2 w4) as (w5 & [] & E5 & H5).
  rewrite (bind_Ok _ _ _ _ _ E5).
  destruct (buffers_upload_indices primitive w5) as (w6 & [] & E6 & H6).
  rewrite (bind_Ok _ _ _ _ _ E6).
  destruct (buffers_append_vao vao w6) as (w7 & [] & E7 & H7).
  rewrite (bind_Ok _ _ _ _ _ E7).
  assert (Htail : keeps Loader.vbos (upload_texture primitive ;; gl_call GL.GetError)).
  { apply keeps_bind; [by apply keeps_upload_texture|]. intros _. apply keeps_gl_call. }
  unfold vbo_count in *. rewrite (Htail w7). unfold buffers_of. lia.
Qed.

Lemma upload_primitives_buffers primitives w :
  ∃ w', for_each primitives upload_primitive w = (w', Ok tt)
        ∧ vbo_count w' = (vbo_count w + sum_list (map buffers_of primitives))%nat.
Proof.
  revert w. induction primitives as [|p primitives IH]; intros w; simpl.
  - exists w. split; [reflexivity|]. lia.
  - destruct (upload_primitive_buffers p w) as (w1 & E1 & H1).
    rewrite (bind_Ok _ _ _ _ _ E1).
    destruct (IH w1) as (w2 & E2 & H2). exists w2. split; [exact E2|]. lia.
Qed.

Lemma upload_meshes_buffers meshes w :
  ∃ w', for_each meshes (λ mesh, for_each (MeshData.primitives mesh) upload_primitive) w
        = (w', Ok tt)
        ∧ vbo_count w' = (vbo_count w + buffer_count meshes)%nat.
Proof.
  revert w. induction meshes as [|mesh meshes IH]; intros w; simpl.
  - exists w. split; [reflexivity|]. unfold buffer_count. simpl. lia.
  - destruct (upload_primitives_buffers (MeshData.primitives mesh) w) as (w1 & E1 & H1).
    rewrite (bind_Ok _ _ _ _ _ E1).
    destruct (IH w1) as (w2 & E2 & H2). exists w2. split; [exact E2|].
    unfold buffer_count in *. simpl. lia.
Qed.

(** X11: When every OpenGL call returns, the upload records for each primitive
    one buffer handle per attribute among POSITION, NORMAL and TEXCOORD_0
    that it has, plus one for its index list: any other attribute is
    assembled but gets no buffer. *)
Theorem upload_records_buffers_of_three_attributes w :
  ∃ w', _setup_opengl_buffers w = (w', Ok tt)
        ∧ length (Loader.vbos (self w'))
          = (length (Loader.vbos (self w)) + buffer_count (Loader.meshes (self w)))%nat.
Proof.
  unfold _setup_opengl_buffers. rewrite try_pass_returns.
  rewrite (bind_Ok get_self _ w w (self w)) by reflexivity.
  destruct (upload_meshes_buffers (Loader.meshes (self w)) w) as (w' & E & Hcount).
  rewrite E. by exists w'.
Qed.

End UploadBuffers.

Lemma upload_records_buffers_of_three_attributes_witness :
  ∃ w', _setup_opengl_buffers (H:=Scene.libs) Run.assembled = (w', Ok tt)
        ∧ length (Loader.vbos (self w')) = 7%nat.
Proof.
  destruct (upload_records_buffers_of_three_attributes (H:=Scene.libs) (λ n, eq_refl)
              Run.assembled) as (w' & E & Hcount).
  exists w'. split; [exact E|]. rewrite Hcount. vm_compute. reflexivity.
Defined.

(** ** A [load] that raises *)

Lemma context_bind {A B} (m : M A) (k : A → M B) :
  leaves_context m → (∀ a, leaves_context (k a)) → leaves_context (m ≫= k).
Proof.
  intros Hm Hk w. unfold mbind, M_bind. specialize (Hm w).
  destruct (m w) as [w1 [a|e]]; simpl in *; [|done]. by rewrite (Hk a w1).
Qed.

Lemma context_for_each {A} (l : list A) (body : A → M unit) :
  (∀ x, leaves_context (body x)) → leaves_context (for_each l body).
Proof.
  intros Hbody. induction l as [|x l IH]; [done|].
  simpl. apply context_bind; [apply Hbody | intros _; exact IH].
Qed.

Lemma context_get_gltf : leaves_context get_gltf.
Proof. intros w. unfold get_gltf. by case_match. Qed.

Lemma context_load_materials : leaves_context _load_materials.
Proof.
  unfold _load_materials. apply context_bind; [apply context_get_gltf|]. intros gltf.
  apply context_for_each. intros m w. by rewrite load_material_runs.
Qed.

Lemma context_load_meshes : leaves_context _load_meshes.
Proof.
  unfold _load_meshes. apply context_bind; [apply context_get_gltf|]. intros gltf.
  apply context_for_each. intros mesh. unfold load_mesh.
  apply context_bind; [done|]. intros s. apply context_bind; [done|]. by intros p w.
Qed.

Lemma try_reraise {A} (m : M A) w : try_except m (λ e, raise e) w = m w.
Proof. unfold try_except, raise. by destruct (m w) as [w' [a|e]]. Qed.

Section FailedLoad.

Context `{Libraries}.

Lemma context_load_textures : leaves_context _load_textures.
Proof.
  unfold _load_textures. apply context_bind; [apply context_get_gltf|]. intros gltf.
  apply context_for_each. intros texture w.
  unfold load_texture, mbind, M_bind, get_self, lift, append_texture, set_self,
    mret, M_ret.
  repeat case_match; simplify_eq; done.
Qed.

(** What holds of the world when [load] raises although the parse returned:
    the exception comes from a decoding step, before the first OpenGL call. *)
Lemma load_raises_after_parse file_name gltf w w' e :
  GLTF2_load (os_path_join (Loader.base_path (self w)) "models" file_name) = Ok gltf →
  load file_name w = (w', Raise e) →
  gl w' = gl w
  ∧ Loader.gltf (self w') = Some gltf
  ∧ Loader.vaos (self w') = []
  ∧ Loader.vbos (self w') = []
  ∧ Loader.texture_ids (self w') = [].
Proof.
  intros Hparse. unfold load.
  rewrite (bind_Ok get_self _ w w (self w)) by reflexivity.
  rewrite try_reraise.
  rewrite (bind_Ok (lift _) _ w w gltf) by (unfold lift; by rewrite Hparse).
  rewrite (bind_Ok (set_gltf gltf) _ w _ tt) by reflexivity.
  rewrite (bind_Ok _clear_previous_data _ _ _ tt) by reflexivity.
  simpl. set (w0 := mkWorld _ (gl w)).
  pose proof (context_load_textures w0) as Hg1.
  pose proof (keeps_load_textures Loader.gltf (λ _ _, eq_refl) w0) as Hs1.
  pose proof (keeps_load_textures Loader.vaos (λ _ _, eq_refl) w0) as Hv1.
  pose proof (keeps_load_textures Loader.vbos (λ _ _, eq_refl) w0) as Hb1.
  pose proof (keeps_load_textures Loader.texture_ids (λ _ _, eq_refl) w0) as Ht1.
  unfold mbind at 1, M_bind.
  destruct (_load_textures w0) as [w1 [[]|e1]]; simpl in *;
    [|by intros [= <- <-]].
  pose proof (context_load_materials w1) as Hg2.
  pose proof (keeps_load_materials Loader.gltf (λ _ _, eq_refl) w1) as Hs2.
  pose proof (keeps_load_materials Loader.vaos (λ _ _, eq_refl) w1) as Hv2.
  pose proof (keeps_load_materials Loader.vbos (λ _ _, eq_refl) w1) as Hb2.
  pose proof (keeps_load_materials Loader.texture_ids (λ _ _, eq_refl) w1) as Ht2.
  unfold mbind at 1, M_bind.
  destruct (_load_materials w1) as [w2 [[]|e2]]; simpl in *;
    [|intros [= <- <-]; by rewrite Hg2, Hs2, Hv2, Hb2, Ht2].
  pose proof (context_load_meshes w2) as Hg3.
  pose proof (keeps_load_meshes Loader.gltf (λ _ _, eq_refl) w2) as Hs3.
  pose proof (keeps_load_meshes Loader.vaos (λ _ _, eq_refl) w2) as Hv3.
  pose proof (keeps_load_meshes Loader.vbos (λ _ _, eq_refl) w2) as Hb3.
  pose proof (keeps_load_meshes Loader.texture_ids (λ _ _, eq_refl) w2) as Ht3.
  unfold mbind at 1, M_bind.
  destruct (_load_meshes w2) as [w3 [[]|e3]]; simpl in *;
    [|intros [= <- <-];
      by rewrite Hg3, Hs3, Hv3, Hb3, Ht3, Hg2, Hs2, Hv2, Hb2, Ht2].
  unfold _setup_opengl_buffers. rewrite try_pass_returns. done.
Qed.

(** X12: A [load] that raises has made no OpenGL call: the context is as it was
    before the call, whatever failed. *)
Theorem failed_load_leaves_context_untouched file_name w w' e :
  load file_name w = (w', Raise e) → gl w' = gl w.
Proof.
  intros Hload.
  destruct (GLTF2_load (os_path_join (Loader.base_path (self w)) "models" file_name))
    as [gltf|e0] eqn:Hparse.
  - by destruct (load_raises_after_parse _ _ _ _ _ Hparse Hload).
  - revert Hload. unfold load.
    rewrite (bind_Ok get_self _ w w (self w)) by reflexivity.
    rewrite try_reraise.
    rewrite (bind_Raise (lift _) _ w w e0) by (unfold lift; by rewrite Hparse).
    by intros [= <- _].
Qed.

(** X13: When the parse returns and a later step raises, the loader keeps the
    new container and holds no handle at all: the handles of an earlier
    load are forgotten, although nothing new was uploaded. *)
Theorem load_failing_after_parse_forgets_handles file_name gltf w w' e :
  GLTF2_load (os_path_join (Loader.base_path (self w)) "models" file_name) = Ok gltf →
  load file_name w = (w', Raise e) →
  Loader.gltf (self w') = Some gltf
  ∧ Loader.vaos (self w') = []
  ∧ Loader.vbos (self w') = []
  ∧ Loader.texture_ids (self w') = [].
Proof.
  intros Hparse Hload.
  by destruct (load_raises_after_parse _ _ _ _ _ Hparse Hload) as [_ Hrest].
Qed.

End FailedLoad.

Lemma failed_load_leaves_context_untouched_witness :
  gl (Scene.after (load (H:=Broken.libs) "broken.glb") Run.planet) = gl Run.planet.
Proof.
  apply (failed_load_leaves_context_untouched (H:=Broken.libs) "broken.glb" Run.planet
           (Scene.after (load (H:=Broken.libs) "broken.glb") Run.planet) IndexError).
  vm_compute. reflexivity.
Defined.

Lemma load_failing_after_parse_forgets_handles_witness :
  Loader.vaos (self Run.planet) = [1; 4; 8]
  ∧ Loader.vaos (self (Scene.after (load (H:=Broken.libs) "broken.glb") Run.planet)) = [].
Proof.
  split; [vm_compute; reflexivity|].
  apply (load_failing_after_parse_forgets_handles (H:=Broken.libs) "broken.glb"
           Broken.container Run.planet
           (Scene.after (load (H:=Broken.libs) "broken.glb") Run.planet) IndexError).
  - reflexivity.
  - vm_compute. reflexivity.
Defined.

(** ** What [render] does not do *)

Lemma draws_bind {A B} (m : M A) (k : A → M B) :
  draws_only m → (∀ a, draws_only (k a)) → draws_only (m ≫= k).
Proof.
  intros Hm Hk w. unfold mbind, M_bind. specialize (Hm w).
  destruct (m w) as [w1 [a|e]]; simpl in *; [|done].
  destruct (Hk a w1) as (F1 & F2 & F3 & F4 & F5).
  rewrite F1, F2, F3, F4, F5. exact Hm.
Qed.

Lemma draws_for_each {A} (l : list A) (body : A → M unit) :
  (∀ x, draws_only (body x)) → draws_only (for_each l body).
Proof.
  intros Hbody. induction l as [|x l IH]; [done|].
  simpl. apply draws_bind; [apply Hbody | intros _; exact IH].
Qed.

Lemma draws_ret {A} (a : A) : draws_only (mret a).
Proof. done. Qed.

Lemma draws_raise {A} e : draws_only (raise (A:=A) e).
Proof. done. Qed.

Lemma draws_lift {A} (r : result A) : draws_only (lift r).
Proof. done. Qed.

Lemma draws_get_self : draws_only get_self.
Proof. done. Qed.

Section RenderOnlyDraws.

Context `{Libraries}.

Lemma draws_gl_call c : is_draw_call c = true → draws_only (gl_call c).
Proof.
  intros Hc w. unfold gl_call. destruct (gl_fault _); simpl; [done|].
  by destruct c.
Qed.

Lemma draws_glGetUniformLocation program name :
  draws_only (glGetUniformLocation program name).
Proof.
  unfold glGetUniformLocation. apply draws_bind; [by apply draws_gl_call|].
  intros _. apply draws_ret.
Qed.

Lemma draws_render_primitive shader_program i mesh jp :
  draws_only (render_primitive shader_program i mesh jp).
Proof.
  unfold render_primitive. apply draws_bind; [apply draws_get_self|]. intros s.
  case_match; [apply draws_ret|].
  apply draws_bind; [apply draws_lift|]. intros vao.
  apply draws_bind; [by apply draws_gl_call|]. intros _.
  apply draws_bind.
  { unfold render_material. apply draws_bind; [apply draws_get_self|]. intros s'.
    repeat case_match; try apply draws_ret.
    apply draws_bind; [apply draws_lift|]. intros material.
    apply draws_bind; [apply draws_glGetUniformLocation|]. intros location.
    apply draws_bind.
    { repeat case_match; first [by apply draws_gl_call | apply draws_raise]. }
    intros _. apply draws_bind; [apply draws_glGetUniformLocation|]. intros l2.
    apply draws_bind; [by apply draws_gl_call|]. intros _.
    apply draws_bind; [apply draws_glGetUniformLocation|]. intros l3.
    by apply draws_gl_call. }
  intros _. apply draws_bind.
  { unfold render_texture. apply draws_bind; [apply draws_get_self|]. intros s'.
    repeat case_match; try apply draws_ret.
    apply draws_bind; [apply draws_lift|]. intros texture_data.
    case_match; [|apply draws_ret].
    apply draws_bind; [by apply draws_gl_call|]. intros _.
    apply draws_bind; [apply draws_lift|]. intros texture_id.
    apply draws_bind; [by apply draws_gl_call|]. intros _.
    apply draws_bind; [apply draws_glGetUniformLocation|]. intros location.
    by apply draws_gl_call. }
  intros _. apply draws_bind; [|intros _; by apply draws_gl_call].
  unfold render_draw.
  repeat case_match; first [by apply draws_gl_call | apply draws_raise].
Qed.

(** X14: [render] only draws: whether it returns or raises, and whichever OpenGL
    calls fail, the loader is exactly as before, and no vertex array,
    buffer, texture or texture image of the context was created or deleted. *)
Theorem render_only_draws shader_program w :
  self (render shader_program w).1 = self w
  ∧ GL.vertex_arrays (gl (render shader_program w).1) = GL.vertex_arrays (gl w)
  ∧ GL.buffers (gl (render shader_program w).1) = GL.buffers (gl w)
  ∧ GL.textures (gl (render shader_program w).1) = GL.textures (gl w)
  ∧ GL.images (gl (render shader_program w).1) = GL.images (gl w).
Proof.
  revert w. change (draws_only (render shader_program)).
  unfold render. apply draws_bind; [apply draws_get_self|]. intros s.
  apply draws_for_each. intros im. apply draws_for_each. intros jp.
  apply draws_render_primitive.
Qed.

End RenderOnlyDraws.

(** ** A loader without handles, and the vertex array of a primitive *)

Lemma getitem_lookup {A} (l : list A) (i : nat) (x : A) :
  l !! i = Some x → Py.getitem l (Z.of_nat i) = Ok x.
Proof.
  intros Hx. unfold Py.getitem, Py.len.
  pose proof (lookup_lt_Some _ _ _ Hx) as Hlt.
  destruct (Z.of_nat i <? 0) eqn:E; [lia|].
  replace ((0 <=? Z.of_nat i) && (Z.of_nat i <? Z.of_nat (length l))) with true
    by (symmetry; apply andb_true_iff; split; lia).
  by rewrite Nat2Z.id, Hx.
Qed.

Lemma for_each_idle {A} (l : list A) (body : A → M unit) w :
  (∀ x, x ∈ l → body x w = (w, Ok tt)) → for_each l body w = (w, Ok tt).
Proof.
  induction l as [|x l IH]; intros Hbody; simpl; [done|].
  rewrite (bind_Ok _ _ w w tt) by (apply Hbody; apply elem_of_cons; by left).
  apply IH. intros y Hy. apply Hbody. apply elem_of_cons. by right.
Qed.

Lemma enumerate_nonneg {A} (l : list A) (ix : Z * A) :
  ix ∈ enumerate l → 0 ≤ ix.1.
Proof.
  unfold enumerate. intros (i & y & -> & _)%elem_of_lookup_imap_1. simpl. lia.
Qed.

Section IdleLoader.

Context `{Libraries}.

(** X15: A loader that holds no vertex-array handle (never loaded, or whose load
    raised) renders nothing: [render] returns without a single OpenGL call,
    whatever meshes it holds. A loader that holds no handle of any kind is
    cleaned up without a single OpenGL call. *)
Theorem loader_without_handles_is_idle shader_program w :
  Loader.vaos (self w) = [] →
  render shader_program w = (w, Ok tt)
  ∧ (Loader.vbos (self w) = [] → Loader.texture_ids (self w) = [] →
     cleanup w = (w, Ok tt)).
Proof.
  intros Hvaos. split.
  - unfold render. rewrite (bind_Ok get_self _ w w (self w)) by reflexivity.
    apply for_each_idle. intros [i mesh] Hi. apply for_each_idle. intros [j p] Hj.
    apply enumerate_nonneg in Hi, Hj. simpl in *.
    unfold render_primitive. rewrite (bind_Ok get_self _ w w (self w)) by reflexivity.
    rewrite Hvaos. simpl.
    replace (Py.len [] <=? i * Py.len (MeshData.primitives mesh) + j) with true;
      [done|].
    symmetry. apply Z.leb_le. unfold Py.len. simpl. nia.
  - intros Hvbos Htids. unfold cleanup.
    rewrite (bind_Ok get_self _ w w (self w)) by reflexivity.
    rewrite Hvaos, Hvbos, Htids. reflexivity.
Qed.

(** X16: When all meshes have the same number of primitives, the vertex array
    [render] binds for primitive [j] of mesh [i] is the one recorded at the
    primitive's place in the flattened (mesh, primitive) order, the order in
    which the upload records them. *)
Theorem render_binds_vertex_array_of_flattened_place shader_program w n i j mesh p vao :
  Forall (λ l, length l = n) (MeshData.primitives <$> Loader.meshes (self w)) →
  Loader.meshes (self w) !! i = Some mesh →
  MeshData.primitives mesh !! j = Some p →
  Loader.vaos (self w) !! (i * n + j)%nat = Some vao →
  mjoin (MeshData.primitives <$> Loader.meshes (self w)) !! (i * n + j)%nat = Some p
  ∧ render_primitive shader_program (Z.of_nat i) mesh (Z.of_nat j, p) w
    = (gl_call (GL.BindVertexArray vao) ;;
       render_material shader_program p ;;
       render_texture shader_program p ;;
       render_draw p ;;
       gl_call (GL.BindVertexArray 0)) w.
Proof.
  intros Hsame Hmesh Hp Hvao.
  assert (Hn : length (MeshData.primitives mesh) = n).
  { rewrite Forall_fmap in Hsame.
    by apply (Forall_lookup_1 _ _ _ _ Hsame Hmesh). }
  pose proof (lookup_lt_Some _ _ _ Hp) as Hj. rewrite Hn in Hj.
  split.
  - apply join_lookup_Some_same_length'; [done | done |].
    exists (MeshData.primitives mesh). split; [|done].
    by rewrite list_lookup_fmap, Hmesh.
  - unfold render_primitive.
    rewrite (bind_Ok get_self _ w w (self w)) by reflexivity. simpl.
    replace (Z.of_nat i * Py.len (MeshData.primitives mesh) + Z.of_nat j)
      with (Z.of_nat (i * n + j)) by (unfold Py.len; rewrite Hn; lia).
    pose proof (lookup_lt_Some _ _ _ Hvao) as Hlt.
    replace (Py.len (Loader.vaos (self w)) <=? Z.of_nat (i * n + j)) with false
      by (symmetry; apply Z.leb_gt; unfold Py.len; lia).
    rewrite (bind_Ok (lift _) _ w w vao); [done|].
    unfold lift. by rewrite (getitem_lookup _ _ _ Hvao).
Qed.

End IdleLoader.

Lemma loader_without_handles_is_idle_witness :
  render (H:=Scene.libs) 0 Run.assembled = (Run.assembled, Ok tt).
Proof.
  destruct (loader_without_handles_is_idle (H:=Scene.libs) 0 Run.assembled)
    as [Hrender _].
  - vm_compute. reflexivity.
  - exact Hrender.
Defined.

Lemma render_binds_vertex_array_of_flattened_place_witness :
  ∃ mesh p,
    mjoin (MeshData.primitives <$> Loader.meshes (self Run.planet)) !! 2%nat = Some p
    ∧ render_primitive (H:=Scene.libs) 0 0 mesh (2, p) Run.planet
      = (gl_call (H:=Scene.libs) (GL.BindVertexArray 8) ;;
         render_material (H:=Scene.libs) 0 p ;;
         render_texture (H:=Scene.libs) 0 p ;;
         render_draw (H:=Scene.libs) p ;;
         gl_call (H:=Scene.libs) (GL.BindVertexArray 0)) Run.planet.
Proof.
  destruct (Loader.meshes (self Run.planet) !! 0%nat) as [mesh|] eqn:Hmesh;
    [|vm_compute in Hmesh; discriminate].
  destruct (MeshData.primitives mesh !! 2%nat) as [p|] eqn:Hp;
    [|vm_compute in Hmesh; injection Hmesh as <-; vm_compute in Hp; discriminate].
  exists mesh, p.
  apply (render_binds_vertex_array_of_flattened_place (H:=Scene.libs) 0 Run.planet
           3 0 2 mesh p 8).
  - vm_compute in Hmesh. injection Hmesh as <-. vm_compute.
    apply Forall_cons. split; [reflexivity | apply Forall_nil_2].
  - exact Hmesh.
  - exact Hp.
  - vm_compute. reflexivity.
Defined.

(** ** Objects created by [load] and released by [cleanup] *)

Lemma uploaded_refl w : uploaded w w.
Proof.
  exists [], [], []. rewrite !app_nil_r. simpl.
  by rewrite !(left_id_L ∅ (∪)).
Qed.

Lemma list_to_set_app_union (l1 l2 : list Z) (X : gset Z) :
  list_to_set l2 ∪ (list_to_set l1 ∪ X) = list_to_set (l1 ++ l2) ∪ X.
Proof.
  rewrite list_to_set_app_L, (comm_L (∪) (list_to_set l1) (list_to_set l2)).
  by rewrite (assoc_L (∪)).
Qed.

Lemma uploaded_trans w1 w2 w3 : uploaded w1 w2 → uploaded w2 w3 → uploaded w1 w3.
Proof.
  intros (lv & lb & lt & Hv & Hb & Ht & HV & HB & HT)
         (lv' & lb' & lt' & Hv' & Hb' & Ht' & HV' & HB' & HT').
  exists (lv ++ lv'), (lb ++ lb'), (lt ++ lt').
  rewrite Hv', Hb', Ht', HV', HB', HT', Hv, Hb, Ht, HV, HB, HT.
  rewrite !app_assoc, !list_to_set_app_union. done.
Qed.

Lemma uploads_bind {A B} (m : M A) (k : A → M B) :
  uploads m → (∀ a, uploads (k a)) → uploads (m ≫= k).
Proof.
  intros Hm Hk w. destruct (Hm w) as (w1 & a & E1 & H1).
  destruct (Hk a w1) as (w2 & b & E2 & H2).
  exists w2, b. rewrite (bind_Ok _ _ _ _ _ E1). split; [exact E2|].
  by eapply uploaded_trans.
Qed.

Lemma uploads_ret {A} (a : A) : uploads (mret a).
Proof. intros w. exists w, a. split; [reflexivity | apply uploaded_refl]. Qed.

Lemma uploads_for_each {A} (l : list A) (body : A → M unit) :
  (∀ x, uploads (body x)) → uploads (for_each l body).
Proof.
  intros Hbody. induction l as [|x l IH]; simpl; [apply uploads_ret|].
  apply uploads_bind; [apply Hbody | intros _; exact IH].
Qed.

Lemma union_swap (X Y Z' : gset Z) : X ∪ (Y ∪ Z') = Y ∪ (X ∪ Z').
Proof. apply set_eq. intros x. rewrite !elem_of_union. tauto. Qed.

Lemma released_subset (X : gset Z) (l : list Z) :
  (list_to_set l ∪ X) ∖ list_to_set l ⊆ X.
Proof.
  intros x. rewrite elem_of_difference, elem_of_union. tauto.
Qed.

Lemma cleanup_releases_recorded (s : Loader.t) (g : GL.state) :
  GL.vertex_arrays (run_all (cleanup_calls s) g)
  = GL.vertex_arrays g ∖ list_to_set (Loader.vaos s)
  ∧ GL.buffers (run_all (cleanup_calls s) g)
    = GL.buffers g ∖ list_to_set (Loader.vbos s)
  ∧ GL.textures (run_all (cleanup_calls s) g)
    = GL.textures g ∖ list_to_set (Loader.texture_ids s).
Proof.
  unfold cleanup_calls, run_all.
  repeat case_bool_decide; simpl;
    repeat match goal with Hnil : _ = [] |- _ => rewrite Hnil; clear Hnil end;
    simpl; rewrite ?difference_empty_L; done.
Qed.

Section LoadThenCleanup.

Context `{Libraries}.

Hypothesis no_fault : ∀ n, gl_fault n = false.
Hypothesis convert_returns : ∀ img, ∃ img', Image_convert img "RGBA" = Ok img'.
Hypothesis np_array_returns : ∀ img, ∃ pixels, np_array img = Ok pixels.

Lemma uploads_gl_call c : is_neutral c = true → uploads (gl_call c).
Proof.
  intros Hc w. eexists _, tt. split; [by apply gl_call_returns|].
  exists [], [], []. rewrite !app_nil_r. simpl.
  rewrite !(left_id_L ∅ (∪)). by destruct c.
Qed.

Lemma glGenBuffers_returns w :
  glGenBuffers w
  = (mkWorld (self w) (GL.run (GL.GenBuffers (GL.fresh (gl w))) (gl w)),
     Ok (GL.fresh (gl w))).
Proof.
  unfold glGenBuffers. by rewrite (bind_Ok _ _ _ _ _ (gl_call_returns no_fault _ w)).
Qed.

Lemma glGenVertexArrays_returns w :
  glGenVertexArrays w
  = (mkWorld (self w) (GL.run (GL.GenVertexArrays (GL.fresh (gl w))) (gl w)),
     Ok (GL.fresh (gl w))).
Proof.
  unfold glGenVertexArrays.
  by rewrite (bind_Ok _ _ _ _ _ (gl_call_returns no_fault _ w)).
Qed.

Lemma glGenTextures_returns w :
  glGenTextures w
  = (mkWorld (self w) (GL.run (GL.GenTextures (GL.fresh (gl w))) (gl w)),
     Ok (GL.fresh (gl w))).
Proof.
  unfold glGenTextures.
  by rewrite (bind_Ok _ _ _ _ _ (gl_call_returns no_fault _ w)).
Qed.

Lemma uploads_upload_attribute primitive name index size :
  uploads (upload_attribute primitive name index size).
Proof.
  unfold upload_attribute.
  destruct (PrimitiveData.attributes primitive !! name); [|apply uploads_ret].
  intros w. rewrite (bind_Ok _ _ _ _ _ (glGenBuffers_returns w)).
  do 4 (erewrite bind_Ok by apply (gl_call_returns no_fault)).
  eexists _, tt. split; [reflexivity|].
  exists [], [GL.fresh (gl w)], []. rewrite !app_nil_r. simpl.
  by rewrite !(left_id_L ∅ (∪)), (right_id_L ∅ (∪)).
Qed.

Lemma uploads_upload_indices primitive : uploads (upload_indices primitive).
Proof.
  unfold upload_indices.
  destruct (PrimitiveData.indices primitive); [|apply uploads_ret].
  intros w. rewrite (bind_Ok _ _ _ _ _ (glGenBuffers_returns w)).
  do 2 (erewrite bind_Ok by apply (gl_call_returns no_fault)).
  eexists _, tt. split; [reflexivity|].
  exists [], [GL.fresh (gl w)], []. rewrite !app_nil_r. simpl.
  by rewrite !(left_id_L ∅ (∪)), (right_id_L ∅ (∪)).
Qed.

(** The texture step may raise (its lookup of the texture is not guarded
    against every index), but a texture it has created is recorded. *)
Lemma upload_texture_uploaded primitive w :
  uploaded w (upload_texture primitive w).1.
Proof.
  unfold upload_texture. rewrite (bind_Ok get_self _ w w (self w)) by reflexivity.
  destruct (PrimitiveData.material primitive) as [material|]; [|apply uploaded_refl].
  destruct (material <? _); [|apply uploaded_refl].
  unfold mbind at 1, M_bind, lift.
  destruct (Py.getitem _ material) as [texture_data|e]; [|apply uploaded_refl].
  destruct (TextureData.image texture_data) as [img|]; [|apply uploaded_refl].
  rewrite (bind_Ok _ _ _ _ _ (glGenTextures_returns w)).
  erewrite bind_Ok by apply (gl_call_returns no_fault).
  unfold upload_image. rewrite try_pass_returns. simpl.
  assert (Himg : ∃ img', (if bool_decide (PIL.mode img = "RGBA"%string) then Ok img
                          else Image_convert img "RGBA") = Ok img').
  { case_bool_decide; [by exists img | apply convert_returns]. }
  destruct Himg as [img' ->]. destruct (np_array_returns img') as [pixels Hpixels].
  erewrite bind_Ok by reflexivity.
  erewrite (bind_Ok (lift _)) by (unfold lift; by rewrite Hpixels).
  do 6 (erewrite bind_Ok by apply (gl_call_returns no_fault)).
  exists [], [], [GL.fresh (gl w)]. rewrite !app_nil_r. simpl.
  by rewrite !(left_id_L ∅ (∪)), (right_id_L ∅ (∪)).
Qed.

Lemma uploads_upload_primitive primitive : uploads (upload_primitive primitive).
Proof.
  intros w. unfold upload_primitive. rewrite try_pass_returns.
  eexists _, tt. split; [reflexivity|].
  rewrite (bind_Ok _ _ _ _ _ (glGenVertexArrays_returns w)).
  set (vao := GL.fresh (gl w)). set (w1 := mkWorld (self w) _).
  assert (Hsteps : uploads
            (gl_call (GL.BindVertexArray vao) ;;
             upload_attribute primitive "POSITION" 0 3 ;;
             upload_attribute primitive "NORMAL" 1 3 ;;
             upload_attribute primitive "TEXCOORD_0" 2 2 ;;
             upload_indices primitive)).
  { apply uploads_bind; [by apply uploads_gl_call|]. intros _.
    do 3 (apply uploads_bind; [apply uploads_upload_attribute|]; intros _).
    apply uploads_upload_indices. }
  destruct (Hsteps w1) as (w6 & [] & E6 & (lv & lb & lt & Hv & Hb & Ht & HV & HB & HT)).
  revert E6. unfold mbind, M_bind.
  destruct (gl_call (GL.BindVertexArray vao) w1) as [w2 [[]|?]]; [|done].
  destruct (upload_attribute primitive "POSITION" 0 3 w2) as [w3 [[]|?]]; [|done].
  destruct (upload_attribute primitive "NORMAL" 1 3 w3) as [w4 [[]|?]]; [|done].
  destruct (upload_attribute primitive "TEXCOORD_0" 2 2 w4) as [w5 [[]|?]]; [|done].
  destruct (upload_indices primitive w5) as [w6' [[]|?]]; [|done].
  intros [= ->]. simpl.
  set (w7 := mkWorld _ (gl w6)).
  assert (H7 : uploaded w w7).
  { exists (lv ++ [vao]), lb, lt. unfold w7, w1 in *. simpl in *.
    rewrite Hv, Hb, Ht, HV, HB, HT, app_assoc.
    rewrite <- list_to_set_app_union. simpl.
    rewrite (right_id_L ∅ (∪)). repeat split; try done. apply union_swap. }
  pose proof (upload_texture_uploaded primitive w7) as Htex.
  destruct (upload_texture primitive w7) as [w8 [[]|e]]; simpl in *.
  - rewrite (gl_call_returns no_fault). simpl.
    eapply uploaded_trans; [exact H7|]. eapply uploaded_trans; [exact Htex|].
    exists [], [], []. rewrite !app_nil_r. simpl. by rewrite !(left_id_L ∅ (∪)).
  - by eapply uploaded_trans.
Qed.

Lemma uploads_setup_opengl_buffers : uploads _setup_opengl_buffers.
Proof.
  intros w. unfold _setup_opengl_buffers. rewrite try_pass_returns.
  rewrite (bind_Ok get_self _ w w (self w)) by reflexivity.
  assert (Hloops : uploads
            (for_each (Loader.meshes (self w))
               (λ mesh, for_each (MeshData.primitives mesh) upload_primitive))).
  { apply uploads_for_each. intros mesh. apply uploads_for_each. intros p.
    apply uploads_upload_primitive. }
  destruct (Hloops w) as (w' & [] & E & Hup). rewrite E. by exists w', tt.
Qed.

End LoadThenCleanup.

Section LoadedObjects.

Context `{Libraries}.

Hypothesis no_fault : ∀ n, gl_fault n = false.
Hypothesis convert_returns : ∀ img, ∃ img', Image_convert img "RGBA" = Ok img'.
Hypothesis np_array_returns : ∀ img, ∃ pixels, np_array img = Ok pixels.

(** After a [load] that returns, the context holds what it held before plus
    exactly the objects whose handles the loader records. *)
Lemma load_objects file_name w w1 :
  load file_name w = (w1, Ok tt) →
  GL.vertex_arrays (gl w1) = list_to_set (Loader.vaos (self w1)) ∪ GL.vertex_arrays (gl w)
  ∧ GL.buffers (gl w1) = list_to_set (Loader.vbos (self w1)) ∪ GL.buffers (gl w)
  ∧ GL.textures (gl w1)
    = list_to_set (Loader.texture_ids (self w1)) ∪ GL.textures (gl w).
Proof.
  unfold load. rewrite (bind_Ok get_self _ w w (self w)) by reflexivity.
  rewrite try_reraise. unfold mbind at 1, M_bind, lift.
  destruct (GLTF2_load _) as [gltf|e]; [|done].
  rewrite (bind_Ok (set_gltf gltf) _ w _ tt) by reflexivity.
  rewrite (bind_Ok _clear_previous_data _ _ _ tt) by reflexivity.
  simpl. set (w0 := mkWorld _ (gl w)).
  pose proof (context_load_textures w0) as Hg1.
  pose proof (keeps_load_textures Loader.vaos (λ _ _, eq_refl) w0) as Hv1.
  pose proof (keeps_load_textures Loader.vbos (λ _ _, eq_refl) w0) as Hb1.
  pose proof (keeps_load_textures Loader.texture_ids (λ _ _, eq_refl) w0) as Ht1.
  unfold mbind at 1, M_bind.
  destruct (_load_textures w0) as [w1' [[]|e1]]; simpl in *; [|done].
  pose proof (context_load_materials w1') as Hg2.
  pose proof (keeps_load_materials Loader.vaos (λ _ _, eq_refl) w1') as Hv2.
  pose proof (keeps_load_materials Loader.vbos (λ _ _, eq_refl) w1') as Hb2.
  pose proof (keeps_load_materials Loader.texture_ids (λ _ _, eq_refl) w1') as Ht2.
  unfold mbind at 1, M_bind.
  destruct (_load_materials w1') as [w2 [[]|e2]]; simpl in *; [|done].
  pose proof (context_load_meshes w2) as Hg3.
  pose proof (keeps_load_meshes Loader.vaos (λ _ _, eq_refl) w2) as Hv3.
  pose proof (keeps_load_meshes Loader.vbos (λ _ _, eq_refl) w2) as Hb3.
  pose proof (keeps_load_meshes Loader.texture_ids (λ _ _, eq_refl) w2) as Ht3.
  unfold mbind at 1, M_bind.
  destruct (_load_meshes w2) as [w3 [[]|e3]]; simpl in *; [|done].
  destruct (uploads_setup_opengl_buffers no_fault convert_returns np_array_returns w3)
    as (w4 & [] & E & (lv & lb & lt & Hv & Hb & Ht & HV & HB & HT)).
  rewrite E. intros [= <-].
  rewrite Hv, Hb, Ht, HV, HB, HT, Hv3, Hv2, Hv1, Hb3, Hb2, Hb1, Ht3, Ht2, Ht1,
    Hg3, Hg2, Hg1.
  done.
Qed.

(** X17: After a [load] that returns (every OpenGL call and every image
    conversion returning), every handle the loader records names an object
    that is alive, and every object that was not there before the call has
    its handle recorded: nothing was created and lost. *)
Theorem loaded_handles_are_the_objects_created file_name w w1 :
  load file_name w = (w1, Ok tt) →
  (∀ h, h ∈ GL.vertex_arrays (gl w1) ↔
        h ∈ Loader.vaos (self w1) ∨ h ∈ GL.vertex_arrays (gl w))
  ∧ (∀ h, h ∈ GL.buffers (gl w1) ↔
          h ∈ Loader.vbos (self w1) ∨ h ∈ GL.buffers (gl w))
  ∧ (∀ h, h ∈ GL.textures (gl w1) ↔
          h ∈ Loader.texture_ids (self w1) ∨ h ∈ GL.textures (gl w)).
Proof.
  intros Hload. destruct (load_objects _ _ _ Hload) as (-> & -> & ->).
  repeat split; intros Hh;
    (apply elem_of_union in Hh || apply elem_of_union);
    (rewrite elem_of_list_to_set in Hh || rewrite elem_of_list_to_set); done.
Qed.

(** X18: [cleanup] after a [load] that returned releases everything the load
    created: every vertex array, buffer and texture alive afterwards was
    alive before the load. *)
Theorem cleanup_releases_what_load_created file_name w w1 :
  load file_name w = (w1, Ok tt) →
  ∃ w2, cleanup w1 = (w2, Ok tt)
        ∧ GL.vertex_arrays (gl w2) ⊆ GL.vertex_arrays (gl w)
        ∧ GL.buffers (gl w2) ⊆ GL.buffers (gl w)
        ∧ GL.textures (gl w2) ⊆ GL.textures (gl w).
Proof.
  intros Hload. destruct (load_objects _ _ _ Hload) as (HV & HB & HT).
  eexists. split; [by apply cleanup_runs|]. simpl.
  destruct (cleanup_releases_recorded (self w1) (gl w1)) as (-> & -> & ->).
  rewrite HV, HB, HT. repeat split; apply released_subset.
Qed.

End LoadedObjects.

Lemma loaded_handles_are_the_objects_created_witness :
  7 ∈ GL.textures (gl Run.planet) ↔
  7 ∈ Loader.texture_ids (self Run.planet) ∨ 7 ∈ GL.textures (gl Scene.start).
Proof.
  destruct (loaded_handles_are_the_objects_created (H:=Scene.libs) (λ n, eq_refl)
              (λ img, ex_intro _ _ eq_refl) (λ img, ex_intro _ _ eq_refl)
              "planet.glb" Scene.start Run.planet) as (_ & _ & Htex).
  - vm_compute. reflexivity.
  - exact (Htex 7).
Defined.

Lemma cleanup_releases_what_load_created_witness :
  ∃ w2, cleanup (H:=Scene.libs) Run.planet = (w2, Ok tt)
        ∧ GL.vertex_arrays (gl w2) ⊆ ∅
        ∧ GL.buffers (gl w2) ⊆ ∅
        ∧ GL.textures (gl w2) ⊆ ∅.
Proof.
  apply (cleanup_releases_what_load_created (H:=Scene.libs) (λ n, eq_refl)
           (λ img, ex_intro _ _ eq_refl) (λ img, ex_intro _ _ eq_refl)
           "planet.glb" Scene.start Run.planet).
  vm_compute. reflexivity.
Defined.

(** ** The records of a loaded container *)

Section LoadedRecords.

Context `{Libraries}.

(** X19: After a [load] that returns, the loader's materials and meshes are the
    records of the container's materials and meshes, place by place: record
    [i] is made from material [i], mesh record [i] from mesh [i], whatever
    the loader held before. (The textures are not: a skipped texture moves
    the later ones down.) *)
Theorem loaded_records_are_index_aligned file_name gltf w w1 :
  GLTF2_load (os_path_join (Loader.base_path (self w)) "models" file_name) = Ok gltf →
  load file_name w = (w1, Ok tt) →
  Loader.gltf (self w1) = Some gltf
  ∧ Forall2 material_record_of (Loader.materials (self w1)) (GLTF2.materials gltf)
  ∧ Forall2 mesh_record_of (Loader.meshes (self w1)) (GLTF2.meshes gltf).
Proof.
  intros Hparse. unfold load.
  rewrite (bind_Ok get_self _ w w (self w)) by reflexivity.
  rewrite try_reraise.
  rewrite (bind_Ok (lift _) _ w w gltf) by (unfold lift; by rewrite Hparse).
  rewrite (bind_Ok (set_gltf gltf) _ w _ tt) by reflexivity.
  rewrite (bind_Ok _clear_previous_data _ _ _ tt) by reflexivity.
  simpl. set (w0 := mkWorld _ (gl w)).
  pose proof (keeps_load_textures Loader.gltf (λ _ _, eq_refl) w0) as Hs1.
  pose proof (keeps_load_textures Loader.materials (λ _ _, eq_refl) w0) as Hm1.
  pose proof (keeps_load_textures Loader.meshes (λ _ _, eq_refl) w0) as He1.
  unfold mbind at 1, M_bind.
  destruct (_load_textures w0) as [w1' [[]|e1]]; simpl in *; [|done].
  pose proof (keeps_load_materials Loader.gltf (λ _ _, eq_refl) w1') as Hs2.
  pose proof (keeps_load_materials Loader.meshes (λ _ _, eq_refl) w1') as He2.
  assert (Hmat : ∃ new, Loader.materials (self (_load_materials w1').1)
                        = Loader.materials (self w1') ++ new
                        ∧ Forall2 material_record_of new (GLTF2.materials gltf)).
  { unfold _load_materials.
    rewrite (bind_Ok get_gltf _ w1' w1' gltf) by (unfold get_gltf; by rewrite Hs1).
    destruct (load_materials_loop (GLTF2.materials gltf) w1')
      as (w' & new & Hrun & Hnew & Hall & _).
    rewrite Hrun. by exists new. }
  destruct Hmat as (materials & Hm2 & Hmaterials). rewrite Hm1 in Hm2. simpl in Hm2.
  unfold mbind at 1, M_bind.
  destruct (_load_materials w1') as [w2 [[]|e2]]; simpl in *; [|done].
  pose proof (keeps_load_meshes Loader.gltf (λ _ _, eq_refl) w2) as Hs3.
  pose proof (keeps_load_meshes Loader.materials (λ _ _, eq_refl) w2) as Hm3.
  unfold mbind at 1, M_bind.
  destruct (_load_meshes w2) as [w3 [[]|e3]] eqn:Hmeshes; simpl in *; [|done].
  assert (Hmesh : ∃ new, Loader.meshes (self w3) = Loader.meshes (self w2) ++ new
                         ∧ Forall2 mesh_record_of new (GLTF2.meshes gltf)).
  { revert Hmeshes. unfold _load_meshes.
    rewrite (bind_Ok get_gltf _ w2 w2 gltf)
      by (unfold get_gltf; by rewrite Hs2, Hs1).
    apply load_meshes_loop. }
  destruct Hmesh as (meshes & He3 & Hmeshes'). rewrite He2, He1 in He3. simpl in He3.
  pose proof (keeps_setup_opengl_buffers Loader.gltf
                (λ _ _, eq_refl) (λ _ _, eq_refl) (λ _ _, eq_refl) w3) as Hs4.
  pose proof (keeps_setup_opengl_buffers Loader.materials
                (λ _ _, eq_refl) (λ _ _, eq_refl) (λ _ _, eq_refl) w3) as Hm4.
  pose proof (keeps_setup_opengl_buffers Loader.meshes
                (λ _ _, eq_refl) (λ _ _, eq_refl) (λ _ _, eq_refl) w3) as He4.
  destruct (_setup_opengl_buffers w3) as [w4 r]. simpl in *.
  intros [= <- _].
  rewrite Hs4, Hs3, Hs2, Hs1, Hm4, Hm3, Hm2, He4, He3. done.
Qed.

End LoadedRecords.

Lemma loaded_records_are_index_aligned_witness :
  Forall2 material_record_of (Loader.materials (self Run.planet))
    (GLTF2.materials Scene.planet)
  ∧ Forall2 mesh_record_of (Loader.meshes (self Run.planet)) (GLTF2.meshes Scene.planet).
Proof.
  destruct (loaded_records_are_index_aligned (H:=Scene.libs) "planet.glb" Scene.planet
              Scene.start Run.planet) as (_ & Hmaterials & Hmeshes).
  - reflexivity.
  - vm_compute. reflexivity.
  - split; [exact Hmaterials | exact Hmeshes].
Defined.
